(** * ENS160 driver (ens160.py): shallow embedding and verified properties

    The development follows the layout of [ens160.py]:

    - [PyNum]     Python's numeric primitives used by the driver: truthiness of
                  an [int], [round] of a [float], and the IEEE-754 binary64
                  arithmetic behind Python's [float], modelled on [Q] with the
                  rounding of every operation written out;
    - [Platform]  the two collaborators of the driver, the [smbus2.SMBus]
                  object and the [time] module, as an interface;
    - [Driver]    the class [Ens160]: register map, handle state, and every
                  method, in a state-and-exception monad that logs each call
                  made to the collaborators;
    - [Mock]      a scripted bus used to run the driver on concrete inputs;
    - the theorems, claim by claim. *)

From Stdlib Require Import ZArith QArith Qabs Qround Qpower Lqa Lia.
From Stdlib Require Import List Bool String Ascii DecimalString.
From Stdlib Require Import Floats.
Import ListNotations.

Local Open Scope Z_scope.

(* ================================================================== *)
(** * Python numerics *)
(* ================================================================== *)

Module PyNum.

(** Truthiness of a Python [int]: [if x:] / [bool(x)]. *)
Definition truthy (x : Z) : bool := negb (x =? 0).

Local Open Scope Q_scope.

(** [2 ^ e] as a rational, for any integer exponent. *)
Definition pow2 (e : Z) : Q := 2 ^ e.

(** Python 3 [round(x)] on a float, one argument: the nearest integer, ties
    going to the even one. *)
Definition py_round (x : Q) : Z :=
  let f := Qfloor x in
  match Qcompare (x - inject_Z f) (1 # 2) with
  | Lt => f
  | Gt => (f + 1)%Z
  | Eq => if Z.even f then f else (f + 1)%Z
  end.

(** The binade of a non-zero rational: the integer [e] with
    [2^e <= |x| < 2^(e+1)].  The difference of the bit lengths of numerator
    and denominator is [e] or [e + 1]; one comparison settles which. *)
Definition binade (x : Q) : Z :=
  let e0 := (Z.log2 (Z.abs (Qnum x)) - Z.log2 (Zpos (Qden x)))%Z in
  if Qle_bool (pow2 e0) (Qabs x) then e0 else (e0 - 1)%Z.

(** Binary64 parameters: 53 bits of precision, least normal exponent -1022,
    overflow threshold [2^1024]. *)
Definition prec : Z := 53.
Definition emin : Z := -1022.
Definition emax : Z := 1024.

(** Exponent of the unit in the last place of the binary64 grid around [x]:
    subnormals share the spacing of the least normal binade. *)
Definition ulp_exp (x : Q) : Z := Z.max (binade x) emin - (prec - 1).

(** Round-to-nearest-even onto the binary64 grid, exponent unbounded above. *)
Definition b64_nearest (x : Q) : Q :=
  if Qeq_bool x 0 then 0
  else let u := pow2 (ulp_exp x) in
       Qred (inject_Z (py_round (x / u)) * u).

(** A finite Python float is the rational it denotes; [None] stands for a
    result that is not finite (IEEE overflow to an infinity). *)
Definition b64 (x : Q) : option Q :=
  let r := b64_nearest x in
  if Qle_bool (pow2 emax) (Qabs r) then None else Some r.

(** A float literal of the source text: the nearest double. *)
Definition lit (x : Q) : Q := b64_nearest x.

(** The float operations the driver uses, each correctly rounded. *)
Definition fadd (x y : Q) : option Q := b64 (x + y).
Definition fsub (x y : Q) : option Q := b64 (x - y).
Definition fmul (x y : Q) : option Q := b64 (x * y).
Definition fdiv (x y : Q) : option Q := b64 (x / y).

(** [float(n)] for a Python [int], as done implicitly by [n / 64.0] and
    [x * 512]; [None] is Python's [OverflowError]. *)
Definition of_int (n : Z) : option Q := b64 (inject_Z n).

End PyNum.

(* ================================================================== *)
(** * The collaborators: [smbus2.SMBus] and the [time] module *)
(* ================================================================== *)

(** The driver is handed a bus object and calls the [time] module.  Both are
    outside the driver; [W] is whatever state stands behind them (the chip,
    the wire, the clock).  Every method takes that state and gives the next
    one.  Bus transactions are taken as reliable: they always answer. *)
Class Platform (W : Type) : Type := {
  read_byte_data      : Z -> Z -> W -> Z * W;
  read_word_data      : Z -> Z -> W -> Z * W;
  read_i2c_block_data : Z -> Z -> Z -> W -> list Z * W;
  write_byte_data     : Z -> Z -> Z -> W -> W;
  write_word_data     : Z -> Z -> Z -> W -> W;
  time_time           : W -> Q * W;
  time_sleep          : Q -> W -> W
}.

(** One entry per call made to a collaborator, with what it answered. *)
Inductive call : Type :=
| ReadByte  (addr reg : Z) (answer : Z)
| ReadWord  (addr reg : Z) (answer : Z)
| ReadBlock (addr reg len : Z) (answer : list Z)
| WriteByte (addr reg value : Z)
| WriteWord (addr reg value : Z)
| Time      (answer : Q)
| Sleep     (secs : Q).

(** Is the call a write on the bus? *)
Definition is_write (c : call) : bool :=
  match c with
  | WriteByte _ _ _ | WriteWord _ _ _ => true
  | _ => false
  end.

(* ================================================================== *)
(** * The class [Ens160] *)
(* ================================================================== *)

Module Driver.

Import PyNum.

(** ** Register map (class attributes) *)

Definition ENS160_PART_ID : Z := 0x160.

Definition REG_PART_ID : Z := 0x00.
Definition REG_OP_MODE : Z := 0x10.
Definition REG_CONFIG : Z := 0x11.
Definition REG_COMMAND : Z := 0x12.
Definition REG_TEMP_IN : Z := 0x13.
Definition REG_RH_IN : Z := 0x15.

Definition REG_STATUS : Z := 0x20.
Definition REG_DATA_AQI : Z := 0x21.
Definition REG_DATA_TVOC : Z := 0x22.
Definition REG_DATA_ECO2 : Z := 0x24.
Definition REG_DATA_T : Z := 0x30.
Definition REG_DATA_RH : Z := 0x32.
Definition REG_DATA_MISR : Z := 0x38.

Definition REG_GPR_WRITE_START : Z := 0x40.
Definition REG_GPR_READ_START : Z := 0x48.

Definition BIT_STATAS : Z := Z.shiftl 1 7.
Definition BIT_STATER : Z := Z.shiftl 1 6.
Definition BIT_VALIDITY : Z := Z.lor (Z.shiftl 1 2) (Z.shiftl 1 3).
Definition SHIFT_VALIDITY : Z := 2.
Definition BIT_NEWDAT : Z := Z.shiftl 1 1.
Definition BIT_NEWGPR : Z := Z.shiftl 1 0.

Definition VALIDITY_NORMAL : Z := 0x0.
Definition VALIDITY_WARM_UP : Z := 0x1.
Definition VALIDITY_INITIAL_STARTUP : Z := 0x2.
Definition VALIDITY_INVALID : Z := 0x3.

Definition COMMAND_NOP : Z := 0x00.
Definition COMMAND_GET_APPVER : Z := 0x0e.
Definition COMMAND_CLRGPR : Z := 0xcc.

Definition OPMODE_DEEP_SLEEP : Z := 0x0.
Definition OPMODE_IDLE : Z := 0x1.
Definition OPMODE_STANDARD : Z := 0x2.
Definition OPMODE_RESET : Z := 0xf0.

Definition DEFAULT_ADDRESS : Z := 0x52.

Definition DEFAULT_TEMPERATURE : Q := lit 20.
Definition DEFAULT_HUMIDITY : Q := lit 50.

(** ** Instance attributes

    [None] is Python's [None], the value [__init__] gives every reading
    attribute.  [_firmware] does not exist before [_initialize] assigns it. *)
Record Ens160 : Type := {
  address : Z;
  _aqi : option Z;
  _tvoc : option Z;
  _eco2 : option Z;
  _time : option Q;
  _ref_temp : option Q;
  _ref_humidity : option Q;
  _validity : option Z;
  _firmware : option string
}.

Definition with_aqi (v : Z) (o : Ens160) : Ens160 :=
  {| address := address o; _aqi := Some v; _tvoc := _tvoc o; _eco2 := _eco2 o;
     _time := _time o; _ref_temp := _ref_temp o;
     _ref_humidity := _ref_humidity o; _validity := _validity o;
     _firmware := _firmware o |}.
Definition with_tvoc (v : Z) (o : Ens160) : Ens160 :=
  {| address := address o; _aqi := _aqi o; _tvoc := Some v; _eco2 := _eco2 o;
     _time := _time o; _ref_temp := _ref_temp o;
     _ref_humidity := _ref_humidity o; _validity := _validity o;
     _firmware := _firmware o |}.
Definition with_eco2 (v : Z) (o : Ens160) : Ens160 :=
  {| address := address o; _aqi := _aqi o; _tvoc := _tvoc o; _eco2 := Some v;
     _time := _time o; _ref_temp := _ref_temp o;
     _ref_humidity := _ref_humidity o; _validity := _validity o;
     _firmware := _firmware o |}.
Definition with_time (v : Q) (o : Ens160) : Ens160 :=
  {| address := address o; _aqi := _aqi o; _tvoc := _tvoc o; _eco2 := _eco2 o;
     _time := Some v; _ref_temp := _ref_temp o;
     _ref_humidity := _ref_humidity o; _validity := _validity o;
     _firmware := _firmware o |}.
Definition with_ref_temp (v : Q) (o : Ens160) : Ens160 :=
  {| address := address o; _aqi := _aqi o; _tvoc := _tvoc o; _eco2 := _eco2 o;
     _time := _time o; _ref_temp := Some v;
     _ref_humidity := _ref_humidity o; _validity := _validity o;
     _firmware := _firmware o |}.
Definition with_ref_humidity (v : Q) (o : Ens160) : Ens160 :=
  {| address := address o; _aqi := _aqi o; _tvoc := _tvoc o; _eco2 := _eco2 o;
     _time := _time o; _ref_temp := _ref_temp o;
     _ref_humidity := Some v; _validity := _validity o;
     _firmware := _firmware o |}.
Definition with_validity (v : Z) (o : Ens160) : Ens160 :=
  {| address := address o; _aqi := _aqi o; _tvoc := _tvoc o; _eco2 := _eco2 o;
     _time := _time o; _ref_temp := _ref_temp o;
     _ref_humidity := _ref_humidity o; _validity := Some v;
     _firmware := _firmware o |}.
Definition with_firmware (v : string) (o : Ens160) : Ens160 :=
  {| address := address o; _aqi := _aqi o; _tvoc := _tvoc o; _eco2 := _eco2 o;
     _time := _time o; _ref_temp := _ref_temp o;
     _ref_humidity := _ref_humidity o; _validity := _validity o;
     _firmware := Some v |}.

(** ** Exceptions the driver can raise *)
Inductive exn : Type :=
| ValueError (msg : string)
| IndexError
| OverflowError.

(** ** Pure parts of the methods *)

(** The five expressions [do_measure] computes from the status byte
    (lines 235-253). *)
Definition statas (status : Z) : Z := Z.land status BIT_STATAS.
Definition stater (status : Z) : Z := Z.land status BIT_STATER.
Definition validity (status : Z) : Z :=
  Z.shiftr (Z.land status BIT_VALIDITY) SHIFT_VALIDITY.
Definition new_data (status : Z) : Z := Z.land status BIT_NEWDAT.
Definition new_gpr (status : Z) : Z := Z.land status BIT_NEWGPR.

(** [low | (high << 8)], as written for TVOC, eCO2, T and RH. *)
Definition word_le (low high : Z) : Z := Z.lor low (Z.shiftl high 8).

(** Chain of float operations, stopping at the first non-finite result. *)
Definition and_then {A B} (x : option A) (f : A -> option B) : option B :=
  match x with Some a => f a | None => None end.

(** [round((temperature + 273.15) * 64.0)]   (lines 200-201). *)
Definition encode_temperature (temperature : Q) : option Z :=
  and_then (fadd temperature (lit (27315 # 100))) (fun kelvin =>
  and_then (fmul kelvin (lit 64)) (fun scaled =>
  Some (py_round scaled))).

(** [round(humidity * 512)]   (line 211); the [int] 512 becomes a float. *)
Definition encode_humidity (humidity : Q) : option Z :=
  and_then (of_int 512) (fun k =>
  and_then (fmul humidity k) (fun scaled =>
  Some (py_round scaled))).

(** [(reference_temp / 64.0) - 273.15]   (line 273). *)
Definition decode_temperature (raw : Z) : option Q :=
  and_then (of_int raw) (fun r =>
  and_then (fdiv r (lit 64)) (fun k =>
  fsub k (lit (27315 # 100)))).

(** [raw / 512.0]   (line 276). *)
Definition decode_humidity (raw : Z) : option Q :=
  and_then (of_int raw) (fun r => fdiv r (lit 512)).

(** [int(enable) << 0 | int(active_low) << 6 | ...]   (lines 320-324). *)
Definition irq_config (enable active_low open_drain assert_data assert_gpr : bool) : Z :=
  Z.lor (Z.lor (Z.lor (Z.lor
    (Z.shiftl (Z.b2z enable) 0)
    (Z.shiftl (Z.b2z active_low) 6))
    (Z.shiftl (Z.b2z open_drain) 5))
    (Z.shiftl (Z.b2z assert_data) 1))
    (Z.shiftl (Z.b2z assert_gpr) 3).

(** [str(n)] for an [int]. *)
Definition py_str (n : Z) : string := NilZero.string_of_int (Z.to_int n).

(** ** The methods

    A method runs on the handle ([self]), the state behind the collaborators
    ([world]) and the log of the calls made so far.  It returns, raises, or is
    still in its wait loop when the step budget given to it ends. *)

Declare Scope ens_scope.
Delimit Scope ens_scope with ens.

Section Methods.

Context {W : Type} {P : Platform W}.

Record state : Type := {
  self : Ens160;
  world : W;
  calls : list call
}.

Inductive outcome (A : Type) : Type :=
| Returns (a : A) (s : state)
| Raises (e : exn) (s : state)
| Unfinished.

Arguments Returns {A} a s.
Arguments Raises {A} e s.
Arguments Unfinished {A}.

Definition M (A : Type) : Type := state -> outcome A.

Definition ret {A} (a : A) : M A := fun s => Returns a s.

Definition bind {A B} (m : M A) (k : A -> M B) : M B := fun s =>
  match m s with
  | Returns a s' => k a s'
  | Raises e s' => Raises e s'
  | Unfinished => Unfinished
  end.

Definition raise {A} (e : exn) : M A := fun s => Raises e s.

Definition unfinished {A} : M A := fun _ => Unfinished.

Notation "x <- m ;; k" := (bind m (fun x => k))
  (at level 61, m at next level, right associativity) : ens_scope.
Notation "m ;; k" := (bind m (fun _ => k))
  (at level 61, right associativity) : ens_scope.

Local Open Scope ens_scope.

(** A float result that must be finite to go on: Python raises
    [OverflowError] when an infinity reaches [round], and when an [int] is
    too large for a float. *)
Definition finite {A} (r : option A) : M A :=
  match r with Some a => ret a | None => raise OverflowError end.

(** [l[i]] *)
Definition item (l : list Z) (i : nat) : M Z :=
  match nth_error l i with Some v => ret v | None => raise IndexError end.

(** Assignment to an attribute of [self]. *)
Definition assign (f : Ens160 -> Ens160) : M unit := fun s =>
  Returns tt {| self := f (self s); world := world s; calls := calls s |}.

(** Calls on [self.bus], at [self.address], and on [time]. *)
Definition bus_read_byte_data (reg : Z) : M Z := fun s =>
  let a := address (self s) in
  let r := read_byte_data a reg (world s) in
  Returns (fst r) {| self := self s; world := snd r;
                     calls := calls s ++ [ReadByte a reg (fst r)] |}.

Definition bus_read_word_data (reg : Z) : M Z := fun s =>
  let a := address (self s) in
  let r := read_word_data a reg (world s) in
  Returns (fst r) {| self := self s; world := snd r;
                     calls := calls s ++ [ReadWord a reg (fst r)] |}.

Definition bus_read_i2c_block_data (reg len : Z) : M (list Z) := fun s =>
  let a := address (self s) in
  let r := read_i2c_block_data a reg len (world s) in
  Returns (fst r) {| self := self s; world := snd r;
                     calls := calls s ++ [ReadBlock a reg len (fst r)] |}.

Definition bus_write_byte_data (reg value : Z) : M unit := fun s =>
  let a := address (self s) in
  Returns tt {| self := self s; world := write_byte_data a reg value (world s);
                calls := calls s ++ [WriteByte a reg value] |}.

Definition bus_write_word_data (reg value : Z) : M unit := fun s =>
  let a := address (self s) in
  Returns tt {| self := self s; world := write_word_data a reg value (world s);
                calls := calls s ++ [WriteWord a reg value] |}.

Definition time_dot_time : M Q := fun s =>
  let r := time_time (world s) in
  Returns (fst r) {| self := self s; world := snd r;
                     calls := calls s ++ [Time (fst r)] |}.

Definition time_dot_sleep (secs : Q) : M unit := fun s =>
  Returns tt {| self := self s; world := time_sleep secs (world s);
                calls := calls s ++ [Sleep secs] |}.

(** [_wait_on_status_bit]: [while True] with one [break].  [fuel] bounds the
    number of iterations looked at; the source has no bound. *)
Fixpoint _wait_on_status_bit (fuel : nat) (bit : Z) : M unit :=
  match fuel with
  | O => unfinished
  | S fuel' =>
      status <- bus_read_byte_data REG_STATUS ;;
      if truthy (Z.land status bit) then ret tt
      else time_dot_sleep (lit (1 # 1000)) ;; _wait_on_status_bit fuel' bit
  end.

Definition _set_operating_mode (mode : Z) : M unit :=
  if negb (existsb (Z.eqb mode) [OPMODE_DEEP_SLEEP; OPMODE_IDLE; OPMODE_STANDARD])
  then raise (ValueError "Invalid operating mode")
  else bus_write_byte_data REG_OP_MODE mode.

Definition shutdown : M unit := _set_operating_mode OPMODE_DEEP_SLEEP.
Definition idle : M unit := _set_operating_mode OPMODE_IDLE.
Definition wakeup : M unit := _set_operating_mode OPMODE_STANDARD.

Definition irq_setup (enable active_low open_drain assert_data assert_gpr : bool)
  : M unit :=
  let reg := irq_config enable active_low open_drain assert_data assert_gpr in
  bus_write_byte_data REG_CONFIG reg.

(** The property setters [ref_temp] and [ref_humidity]. *)
Definition set_ref_temp (temperature : Q) : M unit :=
  word <- finite (encode_temperature temperature) ;;
  bus_write_word_data REG_TEMP_IN word.

Definition set_ref_humidity (humidity : Q) : M unit :=
  word <- finite (encode_humidity humidity) ;;
  bus_write_word_data REG_RH_IN word.

Definition _initialize (fuel : nat) : M unit :=
  bus_write_byte_data REG_OP_MODE OPMODE_RESET ;;
  time_dot_sleep (lit (1 # 100)) ;;
  idle ;;
  part_id <- bus_read_word_data REG_PART_ID ;;
  if negb (part_id =? ENS160_PART_ID)
  then raise (ValueError
         "The I2C part on the given bus and address is not an ENS160 chip")
  else
    bus_write_byte_data REG_COMMAND COMMAND_GET_APPVER ;;
    _wait_on_status_bit fuel BIT_NEWGPR ;;
    data <- bus_read_i2c_block_data (REG_GPR_READ_START + 4) 3 ;;
    assign (with_firmware (String.concat "." (map py_str data))) ;;
    irq_setup false true true true false ;;
    set_ref_temp DEFAULT_TEMPERATURE ;;
    set_ref_humidity DEFAULT_HUMIDITY ;;
    wakeup.

(** [Ens160(bus, address)]: the attributes start at [None], then
    [_initialize] runs. *)
Definition fresh (address : Z) : Ens160 :=
  {| address := address; _aqi := None; _tvoc := None; _eco2 := None;
     _time := None; _ref_temp := None; _ref_humidity := None;
     _validity := None; _firmware := None |}.

Definition __init__ (fuel : nat) (bus : W) (address : Z) : outcome unit :=
  _initialize fuel {| self := fresh address; world := bus; calls := [] |}.

Definition do_measure : M bool :=
  status <- bus_read_byte_data REG_STATUS ;;
  if negb (truthy (statas status)) then ret false else
  if truthy (stater status) then ret false else
  if validity status =? VALIDITY_INVALID then ret false else
  let new_gpr_flag := new_gpr status in   (* computed, never read *)
  (if truthy (new_data status) then
     data_air_quality <- bus_read_i2c_block_data REG_DATA_AQI 5 ;;
     data_reference_params <- bus_read_i2c_block_data REG_DATA_T 4 ;;
     data_misr <- bus_read_byte_data REG_DATA_MISR ;;
     now <- time_dot_time ;;
     assign (with_time now) ;;
     a0 <- item data_air_quality 0 ;;
     assign (with_aqi a0) ;;
     a1 <- item data_air_quality 1 ;;
     a2 <- item data_air_quality 2 ;;
     assign (with_tvoc (word_le a1 a2)) ;;
     a3 <- item data_air_quality 3 ;;
     a4 <- item data_air_quality 4 ;;
     assign (with_eco2 (word_le a3 a4)) ;;
     r0 <- item data_reference_params 0 ;;
     r1 <- item data_reference_params 1 ;;
     reference_temp <- finite (decode_temperature (word_le r0 r1)) ;;
     assign (with_ref_temp reference_temp) ;;
     r2 <- item data_reference_params 2 ;;
     r3 <- item data_reference_params 3 ;;
     reference_humidity <- finite (decode_humidity (word_le r2 r3)) ;;
     assign (with_ref_humidity reference_humidity) ;;
     assign (with_validity (validity status))
   else ret tt) ;;
  ret (truthy (new_data status)).

End Methods.

Arguments state W : clear implicits.
Arguments outcome W A : clear implicits.
Arguments M W A : clear implicits.
Arguments Returns {W A} a s.
Arguments Raises {W A} e s.
Arguments Unfinished {W A}.

(** ** Read-only properties of the handle *)
Definition firmware (o : Ens160) : option string := _firmware o.
Definition aqi (o : Ens160) : option Z := _aqi o.
Definition tvoc (o : Ens160) : option Z := _tvoc o.
Definition eco2 (o : Ens160) : option Z := _eco2 o.
Definition time (o : Ens160) : option Q := _time o.
Definition ref_temp (o : Ens160) : option Q := _ref_temp o.
Definition ref_humidity (o : Ens160) : option Q := _ref_humidity o.

(** [self._validity == Ens160.VALIDITY_...]; [None] equals no integer. *)
Definition is_warm_up (o : Ens160) : bool :=
  match _validity o with Some v => v =? VALIDITY_WARM_UP | None => false end.
Definition is_initial_startup (o : Ens160) : bool :=
  match _validity o with Some v => v =? VALIDITY_INITIAL_STARTUP | None => false end.

End Driver.

(* ================================================================== *)
(** * A scripted chip, to run the driver on concrete inputs *)
(* ================================================================== *)

Module Mock.

Import Driver.

(** A register file behind the bus.  Reads of the status register first
    drain [status_script], then fall back on the register file; the clock
    advances by the time slept. *)
Record chip : Type := {
  regs : Z -> Z;
  status_script : list Z;
  clock : Q
}.

Definition poke (reg value : Z) (f : Z -> Z) : Z -> Z :=
  fun r => if r =? reg then value else f r.

Definition chip_read_byte (addr reg : Z) (c : chip) : Z * chip :=
  if reg =? REG_STATUS then
    match status_script c with
    | [] => (regs c reg, c)
    | s :: rest =>
        (s, {| regs := regs c; status_script := rest; clock := clock c |})
    end
  else (regs c reg, c).

Definition chip_read_word (addr reg : Z) (c : chip) : Z * chip :=
  (word_le (regs c reg) (regs c (reg + 1)), c).

Definition chip_read_block (addr reg len : Z) (c : chip) : list Z * chip :=
  (map (fun i => regs c (reg + Z.of_nat i)) (seq 0 (Z.to_nat len)), c).

Definition chip_write_byte (addr reg value : Z) (c : chip) : chip :=
  {| regs := poke reg (Z.land value 255) (regs c);
     status_script := status_script c; clock := clock c |}.

Definition chip_write_word (addr reg value : Z) (c : chip) : chip :=
  {| regs := poke (reg + 1) (Z.land (Z.shiftr value 8) 255)
               (poke reg (Z.land value 255) (regs c));
     status_script := status_script c; clock := clock c |}.

Definition chip_time (c : chip) : Q * chip := (clock c, c).

Definition chip_sleep (secs : Q) (c : chip) : chip :=
  {| regs := regs c; status_script := status_script c;
     clock := Qred (clock c + secs) |}.

#[export] Instance chip_platform : Platform chip := {
  read_byte_data := chip_read_byte;
  read_word_data := chip_read_word;
  read_i2c_block_data := chip_read_block;
  write_byte_data := chip_write_byte;
  write_word_data := chip_write_word;
  time_time := chip_time;
  time_sleep := chip_sleep
}.

(** A register file given as a table; registers not listed read 0. *)
Fixpoint table (l : list (Z * Z)) : Z -> Z :=
  match l with
  | [] => fun _ => 0
  | (reg, v) :: rest => poke reg v (table rest)
  end.

(** A handle as [__init__] leaves its attributes, on a given chip. *)
Definition on_chip (c : chip) (o : Ens160) : state chip :=
  {| self := o; world := c; calls := [] |}.

(** The chip of the measurement example: status [0b10000010], air-quality
    block [42, 10, 0, 20, 0], reference block [0x00, 0x50, 0x00, 0x64]. *)
Definition sample_chip : chip :=
  {| regs := table [(REG_STATUS, 0x82);
                    (0x21, 42); (0x22, 10); (0x23, 0); (0x24, 20); (0x25, 0);
                    (0x30, 0x00); (0x31, 0x50); (0x32, 0x00); (0x33, 0x64);
                    (REG_DATA_MISR, 0x5a)];
     status_script := [];
     clock := 1000 |}.

(** A chip whose status register never shows any flag. *)
Definition silent_chip : chip :=
  {| regs := table []; status_script := []; clock := 0 |}.

(** A genuine part: identity 0x160, firmware 5.4.6, whose status shows
    nothing twice and then "running, new GPR data". *)
Definition genuine_chip : chip :=
  {| regs := table [(0x00, 0x60); (0x01, 0x01); (REG_STATUS, 0x81);
                    (0x4c, 5); (0x4d, 4); (0x4e, 6)];
     status_script := [0x00; 0x00];
     clock := 0 |}.

(** Some other part answering at the address: identity 0x0161. *)
Definition foreign_chip : chip :=
  {| regs := table [(0x00, 0x61); (0x01, 0x01)];
     status_script := []; clock := 0 |}.

End Mock.

(* ================================================================== *)
(** * The float model *)
(* ================================================================== *)

Section Binary64.

Import PyNum.

Local Open Scope Q_scope.

(** ** Powers of two *)

Lemma pow2_pos e : 0 < pow2 e.
Proof. unfold pow2. apply Qpower_0_lt. reflexivity. Qed.

Lemma pow2_add a b : pow2 (a + b) == pow2 a * pow2 b.
Proof. unfold pow2. apply Qpower_plus. discriminate. Qed.

Lemma pow2_inject n : (0 <= n)%Z -> pow2 n == inject_Z (2 ^ n).
Proof.
  intros Hn. unfold pow2. symmetry.
  rewrite Zpower_Qpower by assumption. reflexivity.
Qed.

(** [round] lands within one half of its argument. *)
Lemma py_round_err x : Qabs (inject_Z (py_round x) - x) <= 1 # 2.
Proof.
  unfold py_round.
  pose proof (Qfloor_le x) as Hlo. pose proof (Qlt_floor x) as Hhi.
  rewrite inject_Z_plus in Hhi. change (inject_Z 1) with 1 in Hhi.
  apply Qabs_Qle_condition.
  destruct (Qcompare (x - inject_Z (Qfloor x)) (1 # 2)) eqn:C.
  - apply Qeq_alt in C.
    destruct (Z.even (Qfloor x)); [|rewrite inject_Z_plus; change (inject_Z 1) with 1]; split; lra.
  - apply Qlt_alt in C. split; lra.
  - apply Qgt_alt in C. rewrite inject_Z_plus; change (inject_Z 1) with 1. split; lra.
Qed.

(** ** The binade *)

Lemma Qabs_frac x : Qabs x == inject_Z (Z.abs (Qnum x)) / inject_Z (Zpos (Qden x)).
Proof. destruct x as [n d]. simpl. apply Qmake_Qdiv. Qed.

Lemma Qnum_abs_pos x : ~ x == 0 -> (0 < Z.abs (Qnum x))%Z.
Proof.
  intros Hx. destruct x as [n d]. simpl.
  assert (n <> 0%Z). { intros ->. apply Hx. reflexivity. }
  lia.
Qed.

(** [binade] is the floor of the base-2 logarithm. *)
Lemma binade_spec x : ~ x == 0 ->
  pow2 (binade x) <= Qabs x /\ Qabs x < pow2 (binade x + 1).
Proof.
  intros Hx. pose proof (Qnum_abs_pos x Hx) as Hp.
  unfold binade.
  set (p := Z.abs (Qnum x)) in *. set (q := Zpos (Qden x)).
  assert (Hq : (0 < q)%Z) by (unfold q; lia).
  destruct (Z.log2_spec p Hp) as [Hp1 Hp2].
  destruct (Z.log2_spec q Hq) as [Hq1 Hq2].
  pose proof (Z.log2_nonneg p) as Hlp. pose proof (Z.log2_nonneg q) as Hlq.
  set (lp := Z.log2 p) in *. set (lq := Z.log2 q) in *.
  assert (HP1 : pow2 lp <= inject_Z p).
  { rewrite pow2_inject by assumption. rewrite <- Zle_Qle. assumption. }
  assert (HP2 : inject_Z p < pow2 (lp + 1)).
  { rewrite pow2_inject by lia. rewrite <- Zlt_Qlt. replace (lp + 1)%Z with (Z.succ lp) by lia. assumption. }
  assert (HQ1 : pow2 lq <= inject_Z q).
  { rewrite pow2_inject by assumption. rewrite <- Zle_Qle. assumption. }
  assert (HQ2 : inject_Z q < pow2 (lq + 1)).
  { rewrite pow2_inject by lia. rewrite <- Zlt_Qlt. replace (lq + 1)%Z with (Z.succ lq) by lia. assumption. }
  assert (HQ0 : 0 < inject_Z q).
  { change 0 with (inject_Z 0). rewrite <- Zlt_Qlt. assumption. }
  assert (Habs : Qabs x == inject_Z p / inject_Z q) by apply Qabs_frac.
  destruct (Qle_bool (pow2 (lp - lq)) (Qabs x)) eqn:T.
  - apply Qle_bool_iff in T. split; [assumption|].
    rewrite Habs. apply Qlt_shift_div_r; [assumption|].
    pose proof (pow2_add (lp - lq + 1) lq) as E.
    replace (lp - lq + 1 + lq)%Z with (lp + 1)%Z in E by lia.
    pose proof (pow2_pos (lp - lq + 1)) as Hpos.
    apply Qlt_le_trans with (pow2 (lp + 1)); [assumption|].
    rewrite E. apply Qmult_le_l; assumption.
  - assert (T' : Qabs x < pow2 (lp - lq)).
    { apply Qnot_le_lt. intros H. apply Qle_bool_iff in H. congruence. }
    split.
    + rewrite Habs. apply Qle_shift_div_l; [assumption|].
      pose proof (pow2_add (lp - lq - 1) (lq + 1)) as E.
      replace (lp - lq - 1 + (lq + 1))%Z with lp in E by lia.
      pose proof (pow2_pos (lp - lq - 1)) as Hpos.
      apply Qle_trans with (pow2 lp); [|assumption].
      rewrite E. apply Qmult_le_l; [assumption|]. apply Qlt_le_weak. assumption.
    + replace (lp - lq - 1 + 1)%Z with (lp - lq)%Z by lia. assumption.
Qed.

(** ** Rounding error *)

Lemma pow2_half e : pow2 e == 2 * pow2 (e - 1).
Proof.
  pose proof (pow2_add 1 (e - 1)) as E.
  replace (1 + (e - 1))%Z with e in E by lia. exact E.
Qed.

(** Rounding onto the grid of spacing [2^k] moves by at most [2^(k-1)]. *)
Lemma grid_round_err x k :
  Qabs (inject_Z (py_round (x / pow2 k)) * pow2 k - x) <= pow2 (k - 1).
Proof.
  pose proof (pow2_pos k) as Hu. pose proof (pow2_half k) as Hh.
  set (u := pow2 k) in *. set (h := pow2 (k - 1)) in *.
  pose proof (py_round_err (x / u)) as Hr.
  set (n := inject_Z (py_round (x / u))) in *.
  assert (Hx : x == (x / u) * u).
  { field. intros E. rewrite E in Hu. apply (Qlt_irrefl 0). exact Hu. }
  assert (E : n * u - x == (n - x / u) * u).
  { rewrite Hx at 1. ring. }
  rewrite E, Qabs_Qmult, (Qabs_pos u) by (apply Qlt_le_weak; exact Hu).
  apply Qle_trans with ((1 # 2) * u).
  - apply Qmult_le_compat_r; [exact Hr | apply Qlt_le_weak; exact Hu].
  - rewrite Hh. apply Qle_lteq. right. ring.
Qed.

(** Binary64 rounding: relative error [2^-53], or half the subnormal
    spacing. *)
Lemma b64_nearest_err x :
  Qabs (b64_nearest x - x) <= Qabs x * pow2 (- prec) + pow2 (emin - prec).
Proof.
  pose proof (pow2_pos (- prec)) as H1. pose proof (pow2_pos (emin - prec)) as H2.
  pose proof (Qabs_nonneg x) as H3.
  unfold b64_nearest. destruct (Qeq_bool x 0) eqn:Z0.
  - apply Qeq_bool_iff in Z0.
    assert (E : 0 - x == 0) by (rewrite Z0; ring).
    rewrite E. change (Qabs 0) with 0.
    apply Qle_trans with (0 * pow2 (- prec) + 0); [apply Qle_lteq; right; ring|].
    apply Qplus_le_compat; [|apply Qlt_le_weak; exact H2].
    apply Qmult_le_compat_r; [exact H3 | apply Qlt_le_weak; exact H1].
  - assert (Hx : ~ x == 0).
    { intros E. apply Qeq_bool_iff in E. congruence. }
    rewrite Qred_correct.
    eapply Qle_trans; [apply grid_round_err|].
    destruct (binade_spec x Hx) as [Hb _].
    unfold ulp_exp.
    destruct (Z.max_spec (binade x) emin) as [[Hlt ->]|[Hge ->]].
    + replace (emin - (prec - 1) - 1)%Z with (emin - prec)%Z by lia.
      apply Qle_trans with (0 + pow2 (emin - prec)); [apply Qle_lteq; right; ring|].
      apply Qplus_le_compat; [|apply Qle_refl].
      apply Qmult_le_0_compat; [exact H3 | apply Qlt_le_weak; exact H1].
    + replace (binade x - (prec - 1) - 1)%Z with (binade x + - prec)%Z by lia.
      rewrite pow2_add.
      apply Qle_trans with (Qabs x * pow2 (- prec) + 0); [|apply Qplus_le_compat; [apply Qle_refl | apply Qlt_le_weak; exact H2]].
      rewrite Qplus_0_r.
      apply Qmult_le_compat_r; [exact Hb | apply Qlt_le_weak; exact H1].
Qed.

(** ** The model against the kernel's binary64

    Rocq's primitive floats are IEEE-754 binary64, as Python's [float] is.
    The rational model gives what they give, here on the constant and the
    operations of the driver, on a tie among subnormals and on overflow. *)

Definition double_value (f : float) : option Q :=
  match Prim2SF f with
  | S754_zero _ => Some 0
  | S754_finite s m e =>
      Some (Qred ((if s then -1 else 1) * inject_Z (Zpos m) * pow2 e))
  | _ => None
  end.

Example literal_agrees :
  double_value 0x1.1126666666666p+8 = Some (lit (27315 # 100)).
Proof. vm_compute. reflexivity. Qed.

Example add_agrees :
  double_value (25.875 + 0x1.1126666666666p+8)
  = fadd (25875 # 1000) (lit (27315 # 100)).
Proof. vm_compute. reflexivity. Qed.

Example mul_agrees :
  double_value (0x1.1126666666666p+8 * 64) = fmul (lit (27315 # 100)) 64.
Proof. vm_compute. reflexivity. Qed.

Example sub_agrees :
  double_value (320 - 0x1.1126666666666p+8) = fsub 320 (lit (27315 # 100)).
Proof. vm_compute. reflexivity. Qed.

Example div_agrees : double_value (1 / 3) = fdiv 1 3.
Proof. vm_compute. reflexivity. Qed.

Example subnormal_tie_agrees :
  double_value (0x1p-1074 / 2) = fdiv (pow2 (-1074)) 2
  /\ double_value (3 * 0x1p-1074 / 2) = fdiv (3 * pow2 (-1074)) 2.
Proof. split; vm_compute; reflexivity. Qed.

Example overflow_agrees :
  double_value (0x1.fffffffffffffp+1023 + 0x1p+970)
  = fadd ((pow2 53 - 1) * pow2 971) (pow2 970)
  /\ double_value (0x1.fffffffffffffp+1023 + 0x1p+969)
     = fadd ((pow2 53 - 1) * pow2 971) (pow2 969).
Proof. split; vm_compute; reflexivity. Qed.

(** ** Working range of the driver: magnitudes up to [2^17] *)

(** Rounding error of any quantity the codec handles: at most [2^-35]. *)
Definition slack : Q := 1 # 34359738368.

Lemma b64_nearest_close x :
  Qabs x <= 131072 -> Qabs (b64_nearest x - x) <= slack.
Proof.
  intros Hx. eapply Qle_trans; [apply b64_nearest_err|].
  assert (P : pow2 (- prec) == 1 # 9007199254740992) by reflexivity.
  assert (T : pow2 (emin - prec) <= 1 # 68719476736) by (vm_compute; discriminate).
  rewrite P.
  assert (M : Qabs x * (1 # 9007199254740992) <= 131072 * (1 # 9007199254740992)).
  { apply Qmult_le_compat_r; [exact Hx | discriminate]. }
  unfold slack. lra.
Qed.

(** No overflow in that range. *)
Lemma b64_finite x :
  Qabs x <= 131072 -> b64 x = Some (b64_nearest x).
Proof.
  intros Hx. pose proof (b64_nearest_close x Hx) as Hc.
  unfold b64.
  destruct (Qle_bool (pow2 emax) (Qabs (b64_nearest x))) eqn:T; [|reflexivity].
  exfalso. apply Qle_bool_iff in T.
  assert (B : 131073 < pow2 emax) by (vm_compute; reflexivity).
  apply Qabs_Qle_condition in Hx. apply Qabs_Qle_condition in Hc.
  unfold slack in Hc.
  assert (A : Qabs (b64_nearest x) <= 131073).
  { apply Qabs_Qle_condition. lra. }
  lra.
Qed.

Lemma lit_64 : lit 64 = 64.
Proof. vm_compute. reflexivity. Qed.

Lemma lit_512 : lit 512 = 512.
Proof. vm_compute. reflexivity. Qed.

(** The double written [273.15] in the source. *)
Definition kelvin_offset : Q := 2402652809016115 # 8796093022208.

Lemma lit_kelvin_offset : lit (27315 # 100) = kelvin_offset.
Proof. vm_compute. reflexivity. Qed.

End Binary64.

(* ================================================================== *)
(** * Calibration codec: round trips *)
(* ================================================================== *)

Section Codec.

Import PyNum Driver.

Local Open Scope Q_scope.

Ltac split_abs H := apply Qabs_Qle_condition in H; unfold slack in H.
Ltac bound_abs := apply Qabs_Qle_condition; unfold slack; split; lra.

(** An integer within less than one of integer bounds is within them. *)
Lemma inject_Z_between (w lo hi : Z) :
  inject_Z lo - (3 # 4) <= inject_Z w ->
  inject_Z w <= inject_Z hi + (3 # 4) ->
  (lo <= w <= hi)%Z.
Proof.
  intros Hlo Hhi.
  assert (A : inject_Z (lo - 1) < inject_Z w).
  { unfold Z.sub. rewrite inject_Z_plus, inject_Z_opp.
    change (inject_Z 1) with 1. lra. }
  assert (B : inject_Z w < inject_Z (hi + 1)).
  { rewrite inject_Z_plus. change (inject_Z 1) with 1. lra. }
  rewrite <- Zlt_Qlt in A, B. lia.
Qed.

(** C4. For every temperature [c] from absolute zero, -273.15 degrees
    Celsius, up to 750 degrees, where the encoding fits the 16-bit register,
    the setter's
    [round((c + 273.15) * 64.0)] is defined and is a 16-bit word, the poll's
    [(word / 64.0) - 273.15] of that word is defined, and it differs from [c]
    by at most 1/64 degree.  Every float operation is rounded as binary64. *)
Theorem temperature_round_trip (c : Q) :
  -27315 # 100 <= c <= 750 ->
  exists (word : Z) (t : Q),
    encode_temperature c = Some word
    /\ (0 <= word <= 65535)%Z
    /\ decode_temperature word = Some t
    /\ Qabs (t - c) <= 1 # 64.
Proof.
  intros [Hlo Hhi].
  unfold encode_temperature, decode_temperature, fadd, fmul, fdiv, fsub, of_int.
  rewrite lit_64, lit_kelvin_offset. unfold kelvin_offset.
  set (K := 2402652809016115 # 8796093022208).
  (* kelvin = temperature + 273.15 *)
  assert (B1 : Qabs (c + K) <= 131072) by (unfold K; bound_abs).
  rewrite (b64_finite _ B1). cbn [and_then].
  pose proof (b64_nearest_close _ B1) as E1. split_abs E1.
  set (kelvin := b64_nearest (c + K)) in *.
  (* kelvin * 64.0 *)
  assert (B2 : Qabs (kelvin * 64) <= 131072) by (unfold K in *; bound_abs).
  rewrite (b64_finite _ B2). cbn [and_then].
  pose proof (b64_nearest_close _ B2) as E2. split_abs E2.
  set (scaled := b64_nearest (kelvin * 64)) in *.
  (* word = round(...) *)
  pose proof (py_round_err scaled) as E3. split_abs E3.
  set (word := py_round scaled) in *.
  assert (Hword : (0 <= word <= 65535)%Z).
  { apply inject_Z_between; change (inject_Z 0) with 0;
      change (inject_Z 65535) with 65535; unfold K in *; lra. }
  (* float(word) / 64.0 *)
  assert (B4 : Qabs (inject_Z word) <= 131072) by (unfold K in *; bound_abs).
  exists word. eexists. split; [reflexivity|]. split; [exact Hword|].
  rewrite (b64_finite _ B4). cbn [and_then].
  pose proof (b64_nearest_close _ B4) as E4. split_abs E4.
  set (r := b64_nearest (inject_Z word)) in *.
  change (r / 64) with (r * (1 # 64)).
  assert (B5 : Qabs (r * (1 # 64)) <= 131072) by (unfold K in *; bound_abs).
  rewrite (b64_finite _ B5). cbn [and_then].
  pose proof (b64_nearest_close _ B5) as E5. split_abs E5.
  set (k := b64_nearest (r * (1 # 64))) in *.
  (* ... - 273.15 *)
  assert (B6 : Qabs (k - K) <= 131072) by (unfold K in *; bound_abs).
  rewrite (b64_finite _ B6).
  pose proof (b64_nearest_close _ B6) as E6. split_abs E6.
  split; [reflexivity|].
  change (Qabs (b64_nearest (k - K) - c) <= 1 # 64).
  unfold K in *. bound_abs.
Qed.

(** C5. For every relative humidity [h] from 0 to 100 percent, the setter's
    [round(h * 512)] is defined and is a 16-bit word, the poll's
    [word / 512.0] of that word is defined, and it differs from [h] by at most
    1/512 percent.  Every float operation is rounded as binary64. *)
Theorem humidity_round_trip (h : Q) :
  0 <= h <= 100 ->
  exists (word : Z) (p : Q),
    encode_humidity h = Some word
    /\ (0 <= word <= 65535)%Z
    /\ decode_humidity word = Some p
    /\ Qabs (p - h) <= 1 # 512.
Proof.
  intros [Hlo Hhi].
  unfold encode_humidity, decode_humidity, fmul, fdiv, of_int.
  rewrite lit_512.
  (* float(512) *)
  assert (B0 : Qabs (inject_Z 512) <= 131072) by (vm_compute; discriminate).
  rewrite (b64_finite _ B0). cbn [and_then].
  change (b64_nearest (inject_Z 512)) with (lit 512). rewrite lit_512.
  (* humidity * 512 *)
  assert (B1 : Qabs (h * 512) <= 131072) by bound_abs.
  rewrite (b64_finite _ B1). cbn [and_then].
  pose proof (b64_nearest_close _ B1) as E1. split_abs E1.
  set (scaled := b64_nearest (h * 512)) in *.
  pose proof (py_round_err scaled) as E2. split_abs E2.
  set (word := py_round scaled) in *.
  assert (Hword : (0 <= word <= 65535)%Z).
  { apply inject_Z_between; change (inject_Z 0) with 0;
      change (inject_Z 65535) with 65535; lra. }
  assert (B3 : Qabs (inject_Z word) <= 131072) by bound_abs.
  exists word. eexists. split; [reflexivity|]. split; [exact Hword|].
  rewrite (b64_finite _ B3). cbn [and_then].
  pose proof (b64_nearest_close _ B3) as E3. split_abs E3.
  set (r := b64_nearest (inject_Z word)) in *.
  change (r / 512) with (r * (1 # 512)).
  assert (B4 : Qabs (r * (1 # 512)) <= 131072) by bound_abs.
  rewrite (b64_finite _ B4).
  pose proof (b64_nearest_close _ B4) as E4. split_abs E4.
  split; [reflexivity|].
  change (Qabs (b64_nearest (r * (1 # 512)) - h) <= 1 # 512).
  bound_abs.
Qed.

End Codec.

(* ================================================================== *)
(** * Status byte *)
(* ================================================================== *)

Section StatusBits.

Import PyNum Driver.

(** Masking with [1 << n] and testing for non-zero reads bit [n]. *)
Lemma truthy_land_bit (a n : Z) :
  0 <= n -> truthy (Z.land a (Z.shiftl 1 n)) = Z.testbit a n.
Proof.
  intros Hn. rewrite Z.shiftl_1_l. unfold truthy.
  destruct (Z.testbit a n) eqn:B.
  - destruct (Z.eqb_spec (Z.land a (2 ^ n)) 0) as [E|]; [|reflexivity].
    exfalso.
    assert (T : Z.testbit (Z.land a (2 ^ n)) n = true).
    { rewrite Z.land_spec, B, Z.pow2_bits_true by assumption. reflexivity. }
    rewrite E, Z.bits_0 in T. discriminate.
  - replace (Z.land a (2 ^ n)) with 0; [reflexivity|].
    symmetry. apply Z.bits_inj'. intros m Hm.
    rewrite Z.land_spec, Z.bits_0, Z.pow2_bits_eqb by assumption.
    destruct (Z.eqb_spec n m) as [->|]; [rewrite B|]; auto using andb_false_r.
Qed.

Lemma statas_bit status : truthy (statas status) = Z.testbit status 7.
Proof. apply truthy_land_bit. lia. Qed.

Lemma stater_bit status : truthy (stater status) = Z.testbit status 6.
Proof. apply truthy_land_bit. lia. Qed.

Lemma new_data_bit status : truthy (new_data status) = Z.testbit status 1.
Proof. apply truthy_land_bit. lia. Qed.

Lemma new_gpr_bit status : truthy (new_gpr status) = Z.testbit status 0.
Proof. apply truthy_land_bit. lia. Qed.

(** The validity field is the two-bit number made of bits 3 and 2. *)
Lemma validity_bits (status : Z) :
  validity status
  = 2 * Z.b2z (Z.testbit status 3) + Z.b2z (Z.testbit status 2).
Proof.
  unfold validity, BIT_VALIDITY, SHIFT_VALIDITY.
  change (Z.lor (Z.shiftl 1 2) (Z.shiftl 1 3)) with (Z.land (Z.ones 4) 12).
  rewrite Z.land_assoc, Z.land_ones by lia.
  rewrite <- (Z.mod_pow2_bits_low status 4 3) by lia.
  rewrite <- (Z.mod_pow2_bits_low status 4 2) by lia.
  pose proof (Z.mod_pos_bound status (2 ^ 4) ltac:(lia)) as Hr.
  set (r := status mod 2 ^ 4) in *. change (2 ^ 4) with 16 in Hr.
  assert (C : r = 0 \/ r = 1 \/ r = 2 \/ r = 3 \/ r = 4 \/ r = 5 \/ r = 6 \/
              r = 7 \/ r = 8 \/ r = 9 \/ r = 10 \/ r = 11 \/ r = 12 \/
              r = 13 \/ r = 14 \/ r = 15) by lia.
  repeat (destruct C as [-> | C]; [reflexivity|]).
  subst r. rewrite C. reflexivity.
Qed.

(** C2. Decoding the status byte is a total function of the byte, and each
    field is the stated bit: running is bit 7, error is bit 6, the validity
    class is the number held in bits 3:2 (0 Normal, 1 WarmUp, 2 InitialStartup,
    3 Invalid), data-fresh is bit 1 and gpr-fresh is bit 0.  It holds for
    every integer, hence for each of the 256 bytes; the byte [0b10000010 = 0x82]
    decodes to running, no error, validity 0, data fresh, gpr not fresh. *)
Theorem status_decode_bits :
  (forall status : Z,
      truthy (statas status) = Z.testbit status 7
   /\ truthy (stater status) = Z.testbit status 6
   /\ validity status
      = 2 * Z.b2z (Z.testbit status 3) + Z.b2z (Z.testbit status 2)
   /\ truthy (new_data status) = Z.testbit status 1
   /\ truthy (new_gpr status) = Z.testbit status 0)
  /\ (VALIDITY_NORMAL, VALIDITY_WARM_UP, VALIDITY_INITIAL_STARTUP,
      VALIDITY_INVALID) = (0, 1, 2, 3)
  /\ (truthy (statas 0x82), truthy (stater 0x82),
      validity 0x82, truthy (new_data 0x82),
      truthy (new_gpr 0x82))
     = (true, false, VALIDITY_NORMAL, true, false).
Proof.
  split; [|split; reflexivity].
  intros status.
  repeat split;
    auto using statas_bit, stater_bit, validity_bits, new_data_bit, new_gpr_bit.
Qed.

(** Two status bytes that differ at most in bit 0 decode alike, bit 0 apart. *)
Lemma land_ignores_bit0 (x y mask : Z) :
  Z.lor x 1 = Z.lor y 1 -> Z.land 1 mask = 0 ->
  Z.land x mask = Z.land y mask.
Proof.
  intros Hxy Hm.
  assert (E : forall z, Z.land (Z.lor z 1) mask = Z.land z mask).
  { intros z. rewrite Z.land_lor_distr_l, Hm. apply Z.lor_0_r. }
  rewrite <- (E x), <- (E y), Hxy. reflexivity.
Qed.

End StatusBits.

(* ================================================================== *)
(** * Measurement polling *)
(* ================================================================== *)

Section Polling.

Import PyNum Driver.

Context {W : Type} {P : Platform W}.

(** The state [do_measure] is in once it has read the status register. *)
Definition after_status (s : state W) : state W :=
  let a := address (self s) in
  let r := read_byte_data a REG_STATUS (world s) in
  {| self := self s; world := snd r;
     calls := calls s ++ [ReadByte a REG_STATUS (fst r)] |}.

(** The status byte that read returns. *)
Definition status_read (s : state W) : Z :=
  fst (read_byte_data (address (self s)) REG_STATUS (world s)).

(** A computation that starts by reading the status register. *)
Lemma bind_status {A} (k : Z -> M W A) (s : state W) :
  bind (bus_read_byte_data REG_STATUS) k s = k (status_read s) (after_status s).
Proof. reflexivity. Qed.

(** Without the data-fresh flag the poll ends after the status read. *)
Lemma do_measure_stale (s : state W) :
  truthy (new_data (status_read s)) = false ->
  do_measure s = Returns false (after_status s).
Proof.
  intros Hnew. unfold do_measure, bind, bus_read_byte_data. cbv zeta.
  fold (status_read s). fold (after_status s).
  destruct (truthy (statas (status_read s))); [|reflexivity].
  destruct (truthy (stater (status_read s))); [reflexivity|].
  destruct (validity (status_read s) =? VALIDITY_INVALID); [reflexivity|].
  rewrite Hnew. reflexivity.
Qed.

(** C3. Whatever the other bits of the status byte are, when its data-fresh
    bit (bit 1) is 0 the poll returns [False] without raising, and no
    attribute of the handle changes; the status read is the only call made. *)
Theorem do_measure_not_fresh (s : state W) :
  Z.testbit (status_read s) 1 = false ->
  exists s',
    do_measure s = Returns false s'
    /\ self s' = self s
    /\ calls s' = calls s ++ [ReadByte (address (self s)) REG_STATUS (status_read s)].
Proof.
  intros Hbit. exists (after_status s). split; [|split; reflexivity].
  apply do_measure_stale. rewrite new_data_bit. exact Hbit.
Qed.


(** What the bus and the clock answer when the poll goes on to read. *)
Definition aq_read (s : state W) : list Z * W :=
  read_i2c_block_data (address (self s)) REG_DATA_AQI 5 (world (after_status s)).
Definition ref_read (s : state W) : list Z * W :=
  read_i2c_block_data (address (self s)) REG_DATA_T 4 (snd (aq_read s)).
Definition misr_read (s : state W) : Z * W :=
  read_byte_data (address (self s)) REG_DATA_MISR (snd (ref_read s)).
Definition clock_read (s : state W) : Q * W :=
  time_time (snd (misr_read s)).

(** The five calls of a poll that finds new data. *)
Definition poll_calls (s : state W) : list call :=
  let a := address (self s) in
  [ReadByte a REG_STATUS (status_read s);
   ReadBlock a REG_DATA_AQI 5 (fst (aq_read s));
   ReadBlock a REG_DATA_T 4 (fst (ref_read s));
   ReadByte a REG_DATA_MISR (fst (misr_read s));
   Time (fst (clock_read s))].

(** A poll that finds new data, two well-formed blocks and decodable
    reference words replaces the seven reading attributes. *)
Lemma do_measure_fresh (s : state W) (a0 a1 a2 a3 a4 r0 r1 r2 r3 : Z) (T H : Q) :
  truthy (statas (status_read s)) = true ->
  truthy (stater (status_read s)) = false ->
  validity (status_read s) <> VALIDITY_INVALID ->
  truthy (new_data (status_read s)) = true ->
  fst (aq_read s) = [a0; a1; a2; a3; a4] ->
  fst (ref_read s) = [r0; r1; r2; r3] ->
  decode_temperature (word_le r0 r1) = Some T ->
  decode_humidity (word_le r2 r3) = Some H ->
  do_measure s
  = Returns true
      {| self := {| address := address (self s);
                    _aqi := Some a0;
                    _tvoc := Some (word_le a1 a2);
                    _eco2 := Some (word_le a3 a4);
                    _time := Some (fst (clock_read s));
                    _ref_temp := Some T;
                    _ref_humidity := Some H;
                    _validity := Some (validity (status_read s));
                    _firmware := _firmware (self s) |};
         world := snd (clock_read s);
         calls := calls s ++ poll_calls s |}.
Proof.
  intros Hrun Herr Hval Hnew Haq Href HT HH.
  unfold poll_calls, clock_read, misr_read, ref_read, aq_read, after_status in *.
  cbn [self world calls] in *.
  unfold do_measure, bind at 1, bus_read_byte_data at 1. cbv zeta.
  fold (status_read s).
  rewrite Hrun, Herr. cbn [negb].
  destruct (Z.eqb_spec (validity (status_read s)) VALIDITY_INVALID) as [E|_];
    [contradiction|].
  rewrite Hnew.
  unfold bind, bus_read_i2c_block_data, bus_read_byte_data, time_dot_time,
    assign, ret.
  cbn [self world calls address].
  rewrite Haq, Href. cbn [item nth_error ret].
  rewrite HT, HH. cbn [finite ret].
  cbv [with_time with_aqi with_tvoc with_eco2 with_ref_temp
       with_ref_humidity with_validity
       self world calls address _aqi _tvoc _eco2 _time _ref_temp
       _ref_humidity _validity _firmware].
  rewrite <- !app_assoc. reflexivity.
Qed.

(** The reference words of the example block, decoded. *)
Definition sample_ref_temp : Q := 412096958090445 # 8796093022208.

Lemma decode_sample_temperature :
  decode_temperature (word_le 0x00 0x50) = Some sample_ref_temp.
Proof. vm_compute. reflexivity. Qed.

Lemma decode_sample_humidity :
  decode_humidity (word_le 0x00 0x64) = Some 50%Q.
Proof. vm_compute. reflexivity. Qed.

(** C1, as the code has it.  When the status byte shows running, no error, a
    validity other than Invalid and fresh data, and the bus answers the
    air-quality block [42, 10, 0, 20, 0] and the reference block
    [0x00, 0x50, 0x00, 0x64], the poll returns [True] and every reading
    attribute is replaced: aqi 42, tvoc 10, eco2 20, the time just read from
    the clock, the validity field of the status byte, the reference
    temperature [(0x5000 / 64.0) - 273.15], which is 46.85 degrees up to
    rounding, and the reference humidity [0x6400 / 512.0], which is 50. *)
Theorem do_measure_sample_blocks (s : state W) :
  Z.testbit (status_read s) 7 = true ->
  Z.testbit (status_read s) 6 = false ->
  validity (status_read s) <> VALIDITY_INVALID ->
  Z.testbit (status_read s) 1 = true ->
  fst (aq_read s) = [42; 10; 0; 20; 0] ->
  fst (ref_read s) = [0x00; 0x50; 0x00; 0x64] ->
  exists s',
    do_measure s = Returns true s'
    /\ self s' = {| address := address (self s);
                    _aqi := Some 42;
                    _tvoc := Some 10;
                    _eco2 := Some 20;
                    _time := Some (fst (clock_read s));
                    _ref_temp := Some sample_ref_temp;
                    _ref_humidity := Some 50%Q;
                    _validity := Some (validity (status_read s));
                    _firmware := _firmware (self s) |}
    /\ decode_temperature 0x5000 = Some sample_ref_temp
    /\ (Qabs (sample_ref_temp - (4685 # 100)) <= 1 # 1000000000000)%Q
    /\ decode_humidity 0x6400 = Some 50%Q.
Proof.
  intros Hrun Herr Hval Hnew Haq Href.
  eexists. split; [|split; [|split; [|split]]].
  - apply (do_measure_fresh s 42 10 0 20 0 0x00 0x50 0x00 0x64
             sample_ref_temp 50%Q);
      rewrite ?statas_bit, ?stater_bit, ?new_data_bit;
      auto using decode_sample_temperature, decode_sample_humidity.
  - reflexivity.
  - exact decode_sample_temperature.
  - vm_compute. discriminate.
  - exact decode_sample_humidity.
Qed.

(** Two states with the same handle and the same world; the logs may differ. *)
Definition same_handle (s t : state W) : Prop :=
  self s = self t /\ world s = world t.

(** Two runs that end alike: same value returned or exception raised, same
    handle, same world. *)
Definition same_outcome {A} (x y : outcome W A) : Prop :=
  match x, y with
  | Returns a s, Returns b t => a = b /\ same_handle s t
  | Raises e s, Raises f t => e = f /\ same_handle s t
  | Unfinished, Unfinished => True
  | _, _ => False
  end.

(** A computation that never looks at the log. *)
Definition log_blind {A} (m : M W A) : Prop :=
  forall s t, same_handle s t -> same_outcome (m s) (m t).

Lemma blind_ret {A} (a : A) : log_blind (ret a).
Proof. intros s t H. split; [reflexivity | exact H]. Qed.

Lemma blind_raise {A} (e : exn) : log_blind (@raise W A e).
Proof. intros s t H. split; [reflexivity | exact H]. Qed.

Lemma blind_bind {A B} (m : M W A) (k : A -> M W B) :
  log_blind m -> (forall a, log_blind (k a)) -> log_blind (bind m k).
Proof.
  intros Hm Hk s t H. unfold bind. specialize (Hm s t H).
  destruct (m s) as [a s'|e s'|], (m t) as [b t'|f t'|]; cbn in Hm;
    try contradiction; try exact I.
  - destruct Hm as [-> Hm]. apply Hk. exact Hm.
  - exact Hm.
Qed.

Lemma blind_assign (f : Ens160 -> Ens160) : log_blind (assign f).
Proof.
  intros s t [Hs Hw]. cbn. repeat split; cbn; congruence.
Qed.

Lemma blind_item (l : list Z) (i : nat) : log_blind (item l i).
Proof. unfold item. destruct (nth_error l i); [apply blind_ret | apply blind_raise]. Qed.

Lemma blind_finite {A} (r : option A) : log_blind (finite r).
Proof. unfold finite. destruct r; [apply blind_ret | apply blind_raise]. Qed.

Lemma blind_read_byte (reg : Z) : log_blind (bus_read_byte_data reg).
Proof.
  intros s t [Hs Hw]. unfold bus_read_byte_data. cbn.
  rewrite Hs, Hw. repeat split.
Qed.

Lemma blind_read_block (reg len : Z) : log_blind (bus_read_i2c_block_data reg len).
Proof.
  intros s t [Hs Hw]. unfold bus_read_i2c_block_data. cbn.
  rewrite Hs, Hw. repeat split.
Qed.

Lemma blind_time : log_blind time_dot_time.
Proof.
  intros s t [Hs Hw]. unfold time_dot_time. cbn.
  rewrite Hw. repeat split. exact Hs.
Qed.

Ltac blind :=
  repeat first
    [ apply blind_ret | apply blind_raise | apply blind_assign
    | apply blind_item | apply blind_finite | apply blind_read_byte
    | apply blind_read_block | apply blind_time
    | apply blind_bind; [|intros] ].

(** C10. The gpr-fresh flag plays no part in a poll.  Take two polls on the
    same handle whose status bytes are equal once bit 0 is set in both, and
    for which the bus and the clock stand in the same state after the status
    read.  They end alike: the same value returned (or the same exception),
    the same attributes of the handle, the same state of bus and clock. *)
Theorem do_measure_ignores_gpr (s t : state W) :
  self s = self t ->
  Z.lor (status_read s) 1 = Z.lor (status_read t) 1 ->
  world (after_status s) = world (after_status t) ->
  same_outcome (do_measure s) (do_measure t).
Proof.
  intros Hself Hbits Hworld.
  assert (Hsame : same_handle (after_status s) (after_status t)).
  { split; [exact Hself | exact Hworld]. }
  assert (E1 : statas (status_read s) = statas (status_read t)).
  { apply land_ignores_bit0; [exact Hbits | reflexivity]. }
  assert (E2 : stater (status_read s) = stater (status_read t)).
  { apply land_ignores_bit0; [exact Hbits | reflexivity]. }
  assert (E3 : validity (status_read s) = validity (status_read t)).
  { unfold validity. f_equal.
    apply land_ignores_bit0; [exact Hbits | reflexivity]. }
  assert (E4 : new_data (status_read s) = new_data (status_read t)).
  { apply land_ignores_bit0; [exact Hbits | reflexivity]. }
  unfold do_measure. rewrite !bind_status. cbv beta zeta.
  rewrite E1, E2, E3, E4.
  destruct (truthy (statas (status_read t))); cbn [negb];
    [|split; [reflexivity | exact Hsame]].
  destruct (truthy (stater (status_read t)));
    [split; [reflexivity | exact Hsame]|].
  destruct (validity (status_read t) =? VALIDITY_INVALID);
    [split; [reflexivity | exact Hsame]|].
  match goal with
  | |- same_outcome (?m _) (?m _) =>
      enough (B : log_blind m) by (apply B; exact Hsame)
  end.
  destruct (truthy (new_data (status_read t))); blind.
Qed.

End Polling.

(* ================================================================== *)
(** * Operating mode, bring-up, calibration *)
(* ================================================================== *)

Section BringUp.

Import PyNum Driver.

Context {W : Type} {P : Platform W}.

(** C6. A mode code other than DeepSleep (0x0), Idle (0x1) and Standard (0x2),
    the reset code 0xF0 among them, makes the mode-set raise [ValueError]
    (the spec's InvalidInput) in the very state it was called in: nothing is
    written on the bus, no call is logged, no attribute changes. *)
Theorem set_operating_mode_rejects (s : state W) (mode : Z) :
  mode <> OPMODE_DEEP_SLEEP ->
  mode <> OPMODE_IDLE ->
  mode <> OPMODE_STANDARD ->
  _set_operating_mode mode s = Raises (ValueError "Invalid operating mode") s.
Proof.
  intros H0 H1 H2. unfold _set_operating_mode. cbn [existsb].
  destruct (Z.eqb_spec mode OPMODE_DEEP_SLEEP); [contradiction|].
  destruct (Z.eqb_spec mode OPMODE_IDLE); [contradiction|].
  destruct (Z.eqb_spec mode OPMODE_STANDARD); [contradiction|].
  reflexivity.
Qed.

(** The three allowed codes are written to the mode register. *)
Lemma set_operating_mode_writes (s : state W) (mode : Z) :
  mode = OPMODE_DEEP_SLEEP \/ mode = OPMODE_IDLE \/ mode = OPMODE_STANDARD ->
  _set_operating_mode mode s = bus_write_byte_data REG_OP_MODE mode s.
Proof. intros [-> | [-> | ->]]; reflexivity. Qed.

Lemma idle_writes : idle = bus_write_byte_data REG_OP_MODE OPMODE_IDLE.
Proof. reflexivity. Qed.

Lemma wakeup_writes : wakeup = bus_write_byte_data REG_OP_MODE OPMODE_STANDARD.
Proof. reflexivity. Qed.

Lemma shutdown_writes : shutdown = bus_write_byte_data REG_OP_MODE OPMODE_DEEP_SLEEP.
Proof. reflexivity. Qed.

(** One step of a computation that starts with a call to a collaborator. *)
Lemma bind_write_byte {A} (reg v : Z) (k : unit -> M W A) (s : state W) :
  bind (bus_write_byte_data reg v) k s
  = k tt {| self := self s;
            world := write_byte_data (address (self s)) reg v (world s);
            calls := calls s ++ [WriteByte (address (self s)) reg v] |}.
Proof. reflexivity. Qed.

Lemma bind_write_word {A} (reg v : Z) (k : unit -> M W A) (s : state W) :
  bind (bus_write_word_data reg v) k s
  = k tt {| self := self s;
            world := write_word_data (address (self s)) reg v (world s);
            calls := calls s ++ [WriteWord (address (self s)) reg v] |}.
Proof. reflexivity. Qed.

Lemma bind_sleep {A} (secs : Q) (k : unit -> M W A) (s : state W) :
  bind (time_dot_sleep secs) k s
  = k tt {| self := self s;
            world := time_sleep secs (world s);
            calls := calls s ++ [Sleep secs] |}.
Proof. reflexivity. Qed.

Lemma bind_read_word {A} (reg : Z) (k : Z -> M W A) (s : state W) :
  bind (bus_read_word_data reg) k s
  = k (fst (read_word_data (address (self s)) reg (world s)))
      {| self := self s;
         world := snd (read_word_data (address (self s)) reg (world s));
         calls := calls s
                  ++ [ReadWord (address (self s)) reg
                        (fst (read_word_data (address (self s)) reg (world s)))] |}.
Proof. reflexivity. Qed.

(** The exception bring-up raises on a foreign part (the spec's
    DeviceMismatch). *)
Definition not_an_ens160 : exn :=
  ValueError "The I2C part on the given bus and address is not an ENS160 chip".

(** The bus and clock as the identity check finds them: after the reset
    write, the settle delay and the Idle mode-set. *)
Definition before_identity (bus : W) (addr : Z) : W :=
  write_byte_data addr REG_OP_MODE OPMODE_IDLE
    (time_sleep (lit (1 # 100))
       (write_byte_data addr REG_OP_MODE OPMODE_RESET bus)).

(** The identity word the bus answers during bring-up. *)
Definition identity_read (bus : W) (addr : Z) : Z * W :=
  read_word_data addr REG_PART_ID (before_identity bus addr).

(** C7. When the identity register answers anything but 0x160, construction
    raises [ValueError] (the spec's DeviceMismatch) for any step budget.  The
    calls made are the reset write, the settle delay, the Idle mode-set and
    the identity read, in this order; the two mode-register writes are the
    only bus writes, and no attribute of the handle was set. *)
Theorem init_rejects_foreign_part (fuel : nat) (bus : W) (addr : Z) :
  fst (identity_read bus addr) <> ENS160_PART_ID ->
  exists s',
    __init__ fuel bus addr = Raises not_an_ens160 s'
    /\ calls s' = [WriteByte addr REG_OP_MODE OPMODE_RESET;
                   Sleep (lit (1 # 100));
                   WriteByte addr REG_OP_MODE OPMODE_IDLE;
                   ReadWord addr REG_PART_ID (fst (identity_read bus addr))]
    /\ filter is_write (calls s')
       = [WriteByte addr REG_OP_MODE OPMODE_RESET;
          WriteByte addr REG_OP_MODE OPMODE_IDLE]
    /\ self s' = fresh addr
    /\ world s' = snd (identity_read bus addr).
Proof.
  intros Hid. unfold identity_read, before_identity in *.
  eexists. split.
  - unfold __init__, _initialize.
    rewrite bind_write_byte, bind_sleep, idle_writes, bind_write_byte,
      bind_read_word.
    cbn [self world calls address fresh].
    destruct (Z.eqb_spec
                (fst (read_word_data addr REG_PART_ID
                        (write_byte_data addr REG_OP_MODE OPMODE_IDLE
                           (time_sleep (lit (1 # 100))
                              (write_byte_data addr REG_OP_MODE OPMODE_RESET bus)))))
                ENS160_PART_ID) as [E|_]; [contradiction|].
    cbn [negb]. unfold raise. reflexivity.
  - cbn [calls self world app filter is_write]. repeat split.
Qed.

(** ** The wait on a status bit *)

(** One round of the loop that did not see the bit: the status read, then the
    millisecond sleep. *)
Definition round (s : state W) : state W :=
  let s1 := after_status s in
  {| self := self s1;
     world := time_sleep (lit (1 # 1000)) (world s1);
     calls := calls s1 ++ [Sleep (lit (1 # 1000))] |}.

Fixpoint rounds (n : nat) (s : state W) : state W :=
  match n with
  | O => s
  | S n' => rounds n' (round s)
  end.

(** The bit awaited, in the status byte the [i]-th read of the loop gets
    (counting from 0). *)
Definition shows (bit : Z) (i : nat) (s : state W) : bool :=
  truthy (Z.land (status_read (rounds i s)) bit).

(** An outcome that is a return or an exception. *)
Definition finished {A} (o : outcome W A) : Prop :=
  match o with Unfinished => False | _ => True end.

Lemma wait_step (fuel : nat) (bit : Z) (s : state W) :
  _wait_on_status_bit (S fuel) bit s
  = if truthy (Z.land (status_read s) bit)
    then Returns tt (after_status s)
    else _wait_on_status_bit fuel bit (round s).
Proof.
  cbn [_wait_on_status_bit]. rewrite bind_status.
  destruct (truthy (Z.land (status_read s) bit)); reflexivity.
Qed.

(** The loop leaves at the first status byte that shows the bit. *)
Lemma wait_returns (bit : Z) (k : nat) :
  forall (s : state W) (fuel : nat),
    (forall i, (i < k)%nat -> shows bit i s = false) ->
    shows bit k s = true ->
    (k < fuel)%nat ->
    _wait_on_status_bit fuel bit s = Returns tt (after_status (rounds k s)).
Proof.
  induction k as [|k IH]; intros s fuel Hbefore Hat Hfuel;
    (destruct fuel as [|fuel]; [lia|]); rewrite wait_step.
  - unfold shows in Hat. cbn [rounds] in Hat. rewrite Hat. reflexivity.
  - pose proof (Hbefore 0%nat ltac:(lia)) as H0.
    unfold shows in H0. cbn [rounds] in H0. rewrite H0.
    cbn [rounds]. apply IH.
    + intros i Hi. apply (Hbefore (S i)). lia.
    + exact Hat.
    + lia.
Qed.

(** Until then it is still looping, whatever the budget. *)
Lemma wait_spins (bit : Z) (fuel : nat) :
  forall s : state W,
    (forall i, (i < fuel)%nat -> shows bit i s = false) ->
    _wait_on_status_bit fuel bit s = Unfinished.
Proof.
  induction fuel as [|fuel IH]; intros s Hnever; [reflexivity|].
  rewrite wait_step.
  pose proof (Hnever 0%nat ltac:(lia)) as H0.
  unfold shows in H0. cbn [rounds] in H0. rewrite H0.
  apply IH. intros i Hi. apply (Hnever (S i)). lia.
Qed.

(** C8, as the code has it.  The wait has no bound of its own and raises
    nothing.  If the [k+1]-th status byte is the first to show the awaited
    bit, the wait returns right after that read, having slept [k] times, as
    soon as it is given more than [k] rounds, and is still looping within any
    smaller budget.  If no status byte ever shows the bit, it is still
    looping after any number of rounds. *)
Theorem wait_on_status_bit_unbounded (bit : Z) (s : state W) :
  (forall k : nat,
      (forall i, (i < k)%nat -> shows bit i s = false) ->
      shows bit k s = true ->
      forall fuel : nat,
        _wait_on_status_bit fuel bit s
        = if (k <? fuel)%nat then Returns tt (after_status (rounds k s))
          else Unfinished)
  /\ ((forall i, shows bit i s = false) ->
      forall fuel : nat, ~ finished (_wait_on_status_bit fuel bit s)).
Proof.
  split.
  - intros k Hbefore Hat fuel.
    destruct (Nat.ltb_spec k fuel) as [Hlt|Hge].
    + apply wait_returns; assumption.
    + apply wait_spins. intros i Hi. apply Hbefore. lia.
  - intros Hnever fuel.
    rewrite wait_spins by (intros; apply Hnever). exact (fun F => F).
Qed.

(** ** Calibration setters *)

Lemma set_ref_temp_writes (s : state W) (temperature : Q) (word : Z) :
  encode_temperature temperature = Some word ->
  set_ref_temp temperature s
  = Returns tt {| self := self s;
                  world := write_word_data (address (self s)) REG_TEMP_IN word
                             (world s);
                  calls := calls s
                           ++ [WriteWord (address (self s)) REG_TEMP_IN word] |}.
Proof. intros E. unfold set_ref_temp. rewrite E. reflexivity. Qed.

Lemma set_ref_humidity_writes (s : state W) (humidity : Q) (word : Z) :
  encode_humidity humidity = Some word ->
  set_ref_humidity humidity s
  = Returns tt {| self := self s;
                  world := write_word_data (address (self s)) REG_RH_IN word
                             (world s);
                  calls := calls s
                           ++ [WriteWord (address (self s)) REG_RH_IN word] |}.
Proof. intros E. unfold set_ref_humidity. rewrite E. reflexivity. Qed.

(** C9, as the code has it.  A calibration setter encodes the value and
    writes the word on the bus; it assigns no attribute, so the accessors
    [ref_temp] and [ref_humidity] return after the call what they returned
    before it.  What they return is set by the polls only: a poll that finds
    new data stores the values decoded from the reference words the chip
    answered. *)
Theorem calibration_accessors_read_back (s : state W) :
  (forall (t : Q) (word : Z),
      encode_temperature t = Some word ->
      exists s',
        set_ref_temp t s = Returns tt s'
        /\ self s' = self s
        /\ ref_temp (self s') = ref_temp (self s)
        /\ calls s' = calls s ++ [WriteWord (address (self s)) REG_TEMP_IN word])
  /\ (forall (h : Q) (word : Z),
      encode_humidity h = Some word ->
      exists s',
        set_ref_humidity h s = Returns tt s'
        /\ self s' = self s
        /\ ref_humidity (self s') = ref_humidity (self s)
        /\ calls s' = calls s ++ [WriteWord (address (self s)) REG_RH_IN word])
  /\ (forall (a0 a1 a2 a3 a4 r0 r1 r2 r3 : Z) (T H : Q),
      truthy (statas (status_read s)) = true ->
      truthy (stater (status_read s)) = false ->
      validity (status_read s) <> VALIDITY_INVALID ->
      truthy (new_data (status_read s)) = true ->
      fst (aq_read s) = [a0; a1; a2; a3; a4] ->
      fst (ref_read s) = [r0; r1; r2; r3] ->
      decode_temperature (word_le r0 r1) = Some T ->
      decode_humidity (word_le r2 r3) = Some H ->
      exists s',
        do_measure s = Returns true s'
        /\ ref_temp (self s') = Some T
        /\ ref_humidity (self s') = Some H).
Proof.
  split; [|split].
  - intros t word E. eexists. split; [apply set_ref_temp_writes; exact E|].
    repeat split.
  - intros h word E. eexists. split; [apply set_ref_humidity_writes; exact E|].
    repeat split.
  - intros a0 a1 a2 a3 a4 r0 r1 r2 r3 T H Hrun Herr Hval Hnew Haq Href HT HH.
    eexists. split.
    + apply (do_measure_fresh s a0 a1 a2 a3 a4 r0 r1 r2 r3 T H); assumption.
    + split; reflexivity.
Qed.

End BringUp.

(* ================================================================== *)
(** * The driver on the scripted chip *)
(* ================================================================== *)

Section OnTheChip.

Import PyNum Driver Mock.

(** A newly built handle at address 0x53 on a chip. *)
Definition at_0x53 (c : chip) : state chip := on_chip c (fresh 0x53).

(** Status [0xfd]: every flag up except data-fresh. *)
Definition stale_chip : chip :=
  {| regs := table [(REG_STATUS, 0xfd)]; status_script := []; clock := 0 |}.

(** The sample chip answering a given status byte once. *)
Definition sample_with_status (status : Z) : chip :=
  {| regs := regs sample_chip; status_script := [status];
     clock := clock sample_chip |}.

Lemma do_measure_sample_blocks_witness :
  (Z.testbit (status_read (at_0x53 sample_chip)) 7 = true
   /\ Z.testbit (status_read (at_0x53 sample_chip)) 6 = false
   /\ validity (status_read (at_0x53 sample_chip)) <> VALIDITY_INVALID
   /\ Z.testbit (status_read (at_0x53 sample_chip)) 1 = true
   /\ fst (aq_read (at_0x53 sample_chip)) = [42; 10; 0; 20; 0]
   /\ fst (ref_read (at_0x53 sample_chip)) = [0x00; 0x50; 0x00; 0x64])
  /\ exists s',
       do_measure (at_0x53 sample_chip) = Returns true s'
       /\ self s' = {| address := 0x53;
                       _aqi := Some 42;
                       _tvoc := Some 10;
                       _eco2 := Some 20;
                       _time := Some 1000%Q;
                       _ref_temp := Some sample_ref_temp;
                       _ref_humidity := Some 50%Q;
                       _validity := Some VALIDITY_NORMAL;
                       _firmware := None |}
       /\ decode_temperature 0x5000 = Some sample_ref_temp
       /\ (Qabs (sample_ref_temp - (4685 # 100)) <= 1 # 1000000000000)%Q
       /\ decode_humidity 0x6400 = Some 50%Q.
Proof.
  assert (V : validity (status_read (at_0x53 sample_chip)) <> VALIDITY_INVALID).
  { vm_compute. discriminate. }
  split.
  - repeat split; try reflexivity. exact V.
  - exact (do_measure_sample_blocks (at_0x53 sample_chip)
             eq_refl eq_refl V eq_refl eq_refl eq_refl).
Defined.

(** C1, as stated, fails on the sample chip: the reference humidity stored
    is 50, not 200, and the reference temperature is 46.85, a degree away
    from 47.85. *)
Lemma do_measure_sample_not_as_stated :
  ~ (exists s' t h,
        do_measure (at_0x53 sample_chip) = Returns true s'
        /\ aqi (self s') = Some 42
        /\ tvoc (self s') = Some 10
        /\ eco2 (self s') = Some 20
        /\ ref_temp (self s') = Some t
        /\ (Qabs (t - (4785 # 100)) <= 1 # 100)%Q
        /\ ref_humidity (self s') = Some h
        /\ (h == 200)%Q).
Proof.
  intros (s' & t & h & Hrun & _ & _ & _ & _ & _ & Hh & E).
  assert (R : exists s0, do_measure (at_0x53 sample_chip) = Returns true s0
                         /\ ref_humidity (self s0) = Some 50%Q).
  { eexists. split; [vm_compute; reflexivity | reflexivity]. }
  destruct R as (s0 & Hrun0 & Hh0).
  rewrite Hrun in Hrun0. injection Hrun0 as <-.
  rewrite Hh in Hh0. injection Hh0 as ->.
  revert E. vm_compute. discriminate.
Qed.

Lemma do_measure_not_fresh_witness :
  Z.testbit (status_read (at_0x53 stale_chip)) 1 = false
  /\ exists s',
       do_measure (at_0x53 stale_chip) = Returns false s'
       /\ self s' = fresh 0x53
       /\ calls s' = [ReadByte 0x53 REG_STATUS 0xfd].
Proof.
  split; [reflexivity|].
  exact (do_measure_not_fresh (at_0x53 stale_chip) eq_refl).
Defined.

Lemma do_measure_ignores_gpr_witness :
  (self (at_0x53 (sample_with_status 0x82))
   = self (at_0x53 (sample_with_status 0x83))
   /\ Z.lor (status_read (at_0x53 (sample_with_status 0x82))) 1
      = Z.lor (status_read (at_0x53 (sample_with_status 0x83))) 1
   /\ world (after_status (at_0x53 (sample_with_status 0x82)))
      = world (after_status (at_0x53 (sample_with_status 0x83))))
  /\ same_outcome (do_measure (at_0x53 (sample_with_status 0x82)))
                  (do_measure (at_0x53 (sample_with_status 0x83))).
Proof.
  split.
  - repeat split.
  - exact (do_measure_ignores_gpr (at_0x53 (sample_with_status 0x82))
             (at_0x53 (sample_with_status 0x83)) eq_refl eq_refl eq_refl).
Defined.

Lemma set_operating_mode_rejects_witness :
  (OPMODE_RESET <> OPMODE_DEEP_SLEEP
   /\ OPMODE_RESET <> OPMODE_IDLE
   /\ OPMODE_RESET <> OPMODE_STANDARD)
  /\ _set_operating_mode OPMODE_RESET (at_0x53 sample_chip)
     = Raises (ValueError "Invalid operating mode") (at_0x53 sample_chip).
Proof.
  assert (H0 : OPMODE_RESET <> OPMODE_DEEP_SLEEP) by (vm_compute; discriminate).
  assert (H1 : OPMODE_RESET <> OPMODE_IDLE) by (vm_compute; discriminate).
  assert (H2 : OPMODE_RESET <> OPMODE_STANDARD) by (vm_compute; discriminate).
  split; [repeat split; assumption|].
  exact (set_operating_mode_rejects (at_0x53 sample_chip) OPMODE_RESET H0 H1 H2).
Defined.

Lemma init_rejects_foreign_part_witness :
  fst (identity_read foreign_chip 0x53) <> ENS160_PART_ID
  /\ exists s',
       __init__ 10 foreign_chip 0x53 = Raises not_an_ens160 s'
       /\ calls s' = [WriteByte 0x53 REG_OP_MODE OPMODE_RESET;
                      Sleep (lit (1 # 100));
                      WriteByte 0x53 REG_OP_MODE OPMODE_IDLE;
                      ReadWord 0x53 REG_PART_ID 0x161]
       /\ filter is_write (calls s')
          = [WriteByte 0x53 REG_OP_MODE OPMODE_RESET;
             WriteByte 0x53 REG_OP_MODE OPMODE_IDLE]
       /\ self s' = fresh 0x53
       /\ world s' = snd (identity_read foreign_chip 0x53).
Proof.
  assert (H : fst (identity_read foreign_chip 0x53) <> ENS160_PART_ID).
  { vm_compute. discriminate. }
  split; [exact H|].
  exact (init_rejects_foreign_part 10 foreign_chip 0x53 H).
Defined.

(** ** The wait on a chip that never raises the flag *)

(** The status register holds 0 and no other answer is scripted. *)
Definition silent (s : state chip) : Prop :=
  status_script (world s) = [] /\ regs (world s) REG_STATUS = 0.

Lemma silent_status (s : state chip) : silent s -> status_read s = 0.
Proof.
  intros [Hs Hr]. unfold status_read. cbn. unfold chip_read_byte.
  cbn. rewrite Hs. exact Hr.
Qed.

Lemma silent_round (s : state chip) : silent s -> silent (round s).
Proof.
  intros [Hs Hr]. unfold silent, round, after_status. cbn.
  unfold chip_read_byte. cbn. rewrite Hs. cbn. split; assumption.
Qed.

Lemma silent_rounds (n : nat) :
  forall s : state chip, silent s -> silent (rounds n s).
Proof.
  induction n as [|n IH]; intros s H; [exact H|].
  cbn [rounds]. apply IH, silent_round, H.
Qed.

Lemma silent_never_shows (bit : Z) (s : state chip) (i : nat) :
  silent s -> shows bit i s = false.
Proof.
  intros H. unfold shows.
  rewrite (silent_status _ (silent_rounds i s H)). reflexivity.
Qed.

(** C8, as stated, fails on the silent chip: the wait on the gpr-fresh bit
    neither returns nor raises within any number of rounds. *)
Lemma wait_never_ends_on_silent_chip :
  ~ (exists fuel : nat,
        finished (_wait_on_status_bit fuel BIT_NEWGPR (at_0x53 silent_chip))).
Proof.
  intros [fuel F].
  rewrite wait_spins in F; [exact F|].
  intros i _. apply silent_never_shows. split; reflexivity.
Qed.

Lemma wait_on_status_bit_unbounded_witness :
  ((forall i, (i < 2)%nat -> shows BIT_NEWGPR i (at_0x53 genuine_chip) = false)
   /\ shows BIT_NEWGPR 2 (at_0x53 genuine_chip) = true)
  /\ _wait_on_status_bit 3 BIT_NEWGPR (at_0x53 genuine_chip)
     = Returns tt (after_status (rounds 2 (at_0x53 genuine_chip)))
  /\ _wait_on_status_bit 2 BIT_NEWGPR (at_0x53 genuine_chip) = Unfinished
  /\ ((forall i, shows BIT_NEWGPR i (at_0x53 silent_chip) = false)
      /\ ~ finished (_wait_on_status_bit 7 BIT_NEWGPR (at_0x53 silent_chip))).
Proof.
  assert (B : forall i, (i < 2)%nat ->
                        shows BIT_NEWGPR i (at_0x53 genuine_chip) = false).
  { intros [|[|i]] Hi; [reflexivity | reflexivity | lia]. }
  assert (A : shows BIT_NEWGPR 2 (at_0x53 genuine_chip) = true) by reflexivity.
  assert (N : forall i, shows BIT_NEWGPR i (at_0x53 silent_chip) = false).
  { intros i. apply silent_never_shows. split; reflexivity. }
  split; [split; assumption|]. split; [|split; [|split]].
  - exact (proj1 (wait_on_status_bit_unbounded BIT_NEWGPR (at_0x53 genuine_chip))
             2%nat B A 3%nat).
  - exact (proj1 (wait_on_status_bit_unbounded BIT_NEWGPR (at_0x53 genuine_chip))
             2%nat B A 2%nat).
  - exact N.
  - exact (proj2 (wait_on_status_bit_unbounded BIT_NEWGPR (at_0x53 silent_chip))
             N 7%nat).
Defined.

(** ** Calibration *)

(** C9, as stated, fails on a new handle: after the reference temperature is
    set to 25 degrees the accessor still returns [None]. *)
Lemma set_ref_temp_not_remembered :
  ~ (exists s' v,
        set_ref_temp 25 (at_0x53 sample_chip) = Returns tt s'
        /\ ref_temp (self s') = Some v
        /\ (v == 25)%Q).
Proof.
  intros (s' & v & Hset & Hget & _).
  assert (R : exists s0, set_ref_temp 25 (at_0x53 sample_chip) = Returns tt s0
                         /\ ref_temp (self s0) = None).
  { eexists. split; [vm_compute; reflexivity | reflexivity]. }
  destruct R as (s0 & Hset0 & Hget0).
  rewrite Hset in Hset0. injection Hset0 as <-.
  rewrite Hget in Hget0. discriminate.
Qed.

Lemma calibration_accessors_read_back_witness :
  (encode_temperature 25 = Some 19082%Z
   /\ encode_humidity 40 = Some 20480%Z)
  /\ (exists s',
        set_ref_temp 25 (at_0x53 sample_chip) = Returns tt s'
        /\ self s' = fresh 0x53
        /\ ref_temp (self s') = None
        /\ calls s' = [WriteWord 0x53 REG_TEMP_IN 19082])
  /\ (exists s',
        set_ref_humidity 40 (at_0x53 sample_chip) = Returns tt s'
        /\ self s' = fresh 0x53
        /\ ref_humidity (self s') = None
        /\ calls s' = [WriteWord 0x53 REG_RH_IN 20480])
  /\ (exists s',
        do_measure (at_0x53 sample_chip) = Returns true s'
        /\ ref_temp (self s') = Some sample_ref_temp
        /\ ref_humidity (self s') = Some 50%Q).
Proof.
  assert (ET : encode_temperature 25 = Some 19082%Z) by (vm_compute; reflexivity).
  assert (EH : encode_humidity 40 = Some 20480%Z) by (vm_compute; reflexivity).
  assert (V : validity (status_read (at_0x53 sample_chip)) <> VALIDITY_INVALID).
  { vm_compute. discriminate. }
  split; [split; assumption|]. split; [|split].
  - exact (proj1 (calibration_accessors_read_back (at_0x53 sample_chip))
             25%Q 19082 ET).
  - exact (proj1 (proj2 (calibration_accessors_read_back (at_0x53 sample_chip)))
             40%Q 20480 EH).
  - exact (proj2 (proj2 (calibration_accessors_read_back (at_0x53 sample_chip)))
             42 10 0 20 0 0x00 0x50 0x00 0x64 sample_ref_temp 50%Q
             eq_refl eq_refl V eq_refl eq_refl eq_refl
             decode_sample_temperature decode_sample_humidity).
Defined.

(** ** Codec *)

Lemma temperature_round_trip_witness :
  (-27315 # 100 <= 2585 # 100 <= 750)%Q
  /\ exists (word : Z) (t : Q),
       encode_temperature (2585 # 100) = Some word
       /\ (0 <= word <= 65535)%Z
       /\ decode_temperature word = Some t
       /\ (Qabs (t - (2585 # 100)) <= 1 # 64)%Q.
Proof.
  assert (H : (-27315 # 100 <= 2585 # 100 <= 750)%Q).
  { split; unfold Qle; simpl; lia. }
  split; [exact H|].
  exact (temperature_round_trip (2585 # 100) H).
Defined.

Lemma humidity_round_trip_witness :
  (0 <= 4321 # 100 <= 100)%Q
  /\ exists (word : Z) (p : Q),
       encode_humidity (4321 # 100) = Some word
       /\ (0 <= word <= 65535)%Z
       /\ decode_humidity word = Some p
       /\ (Qabs (p - (4321 # 100)) <= 1 # 512)%Q.
Proof.
  assert (H : (0 <= 4321 # 100 <= 100)%Q).
  { split; unfold Qle; simpl; lia. }
  split; [exact H|].
  exact (humidity_round_trip (4321 # 100) H).
Defined.

(** ** A whole bring-up, then a poll *)

(** On the genuine chip bring-up succeeds once the wait is given three
    rounds; the handle holds the firmware string and still no reference
    values, although 20.0 and 50.0 were written to the chip. *)
Example bring_up_genuine :
  exists s',
    __init__ 3 genuine_chip 0x53 = Returns tt s'
    /\ firmware (self s') = Some "5.4.6"%string
    /\ ref_temp (self s') = None
    /\ ref_humidity (self s') = None
    /\ filter is_write (calls s')
       = [WriteByte 0x53 REG_OP_MODE OPMODE_RESET;
          WriteByte 0x53 REG_OP_MODE OPMODE_IDLE;
          WriteByte 0x53 REG_COMMAND COMMAND_GET_APPVER;
          WriteByte 0x53 REG_CONFIG 98;
          WriteWord 0x53 REG_TEMP_IN 18762;
          WriteWord 0x53 REG_RH_IN 25600;
          WriteByte 0x53 REG_OP_MODE OPMODE_STANDARD].
Proof.
  eexists. split; [vm_compute; reflexivity|]. repeat split.
Qed.

End OnTheChip.

(* ================================================================== *)
(** * More on the float model: values the grid holds exactly *)
(* ================================================================== *)

Section Exactness.

Import PyNum.

Local Open Scope Q_scope.

Lemma pow2_le a b : (a <= b)%Z -> pow2 a <= pow2 b.
Proof.
  intros Hab.
  pose proof (pow2_add a (b - a)) as E.
  replace (a + (b - a))%Z with b in E by lia.
  pose proof (pow2_pos a) as Ha.
  assert (H1 : 1 <= pow2 (b - a)).
  { rewrite pow2_inject by lia. change 1 with (inject_Z 1).
    rewrite <- Zle_Qle. pose proof (Z.pow_pos_nonneg 2 (b - a)). lia. }
  rewrite E.
  apply Qle_trans with (pow2 a * 1); [rewrite Qmult_1_r; apply Qle_refl|].
  apply Qmult_le_l; assumption.
Qed.

Lemma pow2_lt_inv a b : pow2 a < pow2 b -> (a < b)%Z.
Proof.
  intros H. destruct (Z.lt_ge_cases a b) as [L|G]; [exact L|].
  exfalso. apply (Qlt_not_le _ _ H). apply pow2_le. exact G.
Qed.

(** [round] sees the number, not the fraction that writes it. *)
Lemma py_round_Qeq x y : x == y -> py_round x = py_round y.
Proof.
  intros E. unfold py_round.
  rewrite (Qfloor_comp x y E). rewrite E. reflexivity.
Qed.

Lemma py_round_inject n : py_round (inject_Z n) = n.
Proof.
  unfold py_round. rewrite Qfloor_Z.
  assert (E : inject_Z n - inject_Z n == 0) by ring.
  rewrite E. reflexivity.
Qed.

(** The integer strictly within one half of [x] is [round(x)]. *)
Lemma py_round_unique x w :
  Qabs (x - inject_Z w) < 1 # 2 -> py_round x = w.
Proof.
  intros H. pose proof (py_round_err x) as R.
  apply Qabs_Qle_condition in R.
  assert (H' : - (1 # 2) < x - inject_Z w /\ x - inject_Z w < 1 # 2).
  { split.
    - apply Qnot_le_lt. intros C.
      apply (Qlt_not_le _ _ H). rewrite Qabs_neg by lra. lra.
    - apply Qle_lt_trans with (Qabs (x - inject_Z w)); [apply Qle_Qabs | exact H]. }
  destruct H' as [Hlo Hhi].
  set (r := py_round x) in *.
  assert (A : inject_Z (w - 1) < inject_Z r).
  { unfold Z.sub. rewrite inject_Z_plus, inject_Z_opp.
    change (inject_Z 1) with 1. lra. }
  assert (B : inject_Z r < inject_Z (w + 1)).
  { rewrite inject_Z_plus. change (inject_Z 1) with 1. lra. }
  rewrite <- Zlt_Qlt in A, B. lia.
Qed.

(** A number [m * 2^k] with [|m| < 2^53], above the subnormal spacing, is a
    double: rounding leaves it as it is. *)
Lemma b64_nearest_exact x m k :
  x == inject_Z m * pow2 k ->
  (Z.abs m < 2 ^ prec)%Z ->
  (emin - (prec - 1) <= k)%Z ->
  b64_nearest x == x.
Proof.
  intros Hx Hm Hk. unfold b64_nearest.
  destruct (Qeq_bool x 0) eqn:Z0.
  - apply Qeq_bool_iff in Z0. symmetry. exact Z0.
  - assert (Hx0 : ~ x == 0).
    { intros E. apply Qeq_bool_iff in E. congruence. }
    rewrite Qred_correct.
    destruct (binade_spec x Hx0) as [Hb _].
    pose proof (pow2_pos k) as Hpk.
    assert (Habs : Qabs x == inject_Z (Z.abs m) * pow2 k).
    { rewrite (Qabs_wd _ _ Hx), Qabs_Qmult, (Qabs_pos (pow2 k))
        by (apply Qlt_le_weak; exact Hpk).
      change (Qabs (inject_Z m)) with (inject_Z (Z.abs m)). reflexivity. }
    assert (Hlt : pow2 (binade x) < pow2 (prec + k)).
    { eapply Qle_lt_trans; [exact Hb|]. rewrite Habs, pow2_add.
      apply Qmult_lt_r; [exact Hpk|].
      rewrite (pow2_inject prec) by (unfold prec; lia).
      rewrite <- Zlt_Qlt. exact Hm. }
    apply pow2_lt_inv in Hlt.
    set (u := ulp_exp x).
    assert (Hu : (u <= k)%Z) by (unfold u, ulp_exp; lia).
    pose proof (pow2_pos u) as Hpu.
    assert (Hnz : ~ pow2 u == 0).
    { intros E. rewrite E in Hpu. apply (Qlt_irrefl 0). exact Hpu. }
    assert (Hsplit : pow2 k == pow2 u * pow2 (k - u)).
    { rewrite <- pow2_add. replace (u + (k - u))%Z with k by lia. reflexivity. }
    assert (Hq : x / pow2 u == inject_Z (m * 2 ^ (k - u))).
    { rewrite inject_Z_mult, <- pow2_inject by lia.
      rewrite Hx, Hsplit. field. exact Hnz. }
    rewrite (py_round_Qeq _ _ Hq), py_round_inject.
    rewrite inject_Z_mult, <- pow2_inject by lia.
    rewrite Hx, Hsplit. ring.
Qed.

End Exactness.

(* ================================================================== *)
(** * Calibration codec: what the chip's words decode to *)
(* ================================================================== *)

Section CodecWords.

Import PyNum Driver.

Local Open Scope Q_scope.

(** A 16-bit word as a rational. *)
Lemma word_magnitude (w : Z) :
  (0 <= w <= 65535)%Z -> 0 <= inject_Z w <= 65535.
Proof.
  intros [Hlo Hhi]. split.
  - change 0 with (inject_Z 0). rewrite <- Zle_Qle. exact Hlo.
  - change 65535 with (inject_Z 65535). rewrite <- Zle_Qle. exact Hhi.
Qed.

(** [float(w)] is [w]. *)
Lemma of_int_word (w : Z) :
  (0 <= w <= 65535)%Z ->
  of_int w = Some (b64_nearest (inject_Z w))
  /\ b64_nearest (inject_Z w) == inject_Z w.
Proof.
  intros Hw. pose proof (word_magnitude w Hw) as [Hlo Hhi]. split.
  - apply b64_finite. apply Qabs_Qle_condition. split; lra.
  - apply (b64_nearest_exact _ w 0).
    + change (pow2 0) with 1. ring.
    + unfold prec. lia.
    + unfold emin, prec. lia.
Qed.

(** [w / 64.0] and [w / 512.0] are exact. *)
Lemma scaled_word_exact (w : Z) (r : Q) (k : Z) :
  (0 <= w <= 65535)%Z -> (-9 <= k <= 0)%Z ->
  r == inject_Z w ->
  b64 (r * pow2 k) = Some (b64_nearest (r * pow2 k))
  /\ b64_nearest (r * pow2 k) == inject_Z w * pow2 k.
Proof.
  intros Hw Hk Er. pose proof (word_magnitude w Hw) as [Hlo Hhi].
  pose proof (pow2_pos k) as Hp.
  assert (H1 : pow2 k <= 1).
  { change 1 with (pow2 0). apply pow2_le. lia. }
  assert (Hx : r * pow2 k == inject_Z w * pow2 k) by (rewrite Er; reflexivity).
  assert (Hm : 0 <= inject_Z w * pow2 k <= 65535).
  { split.
    - apply Qmult_le_0_compat; [exact Hlo | apply Qlt_le_weak; exact Hp].
    - apply Qle_trans with (inject_Z w * 1).
      + apply Qmult_le_compat_nonneg; split;
          [exact Hlo | apply Qle_refl | apply Qlt_le_weak; exact Hp | exact H1].
      + rewrite Qmult_1_r. exact Hhi. }
  split.
  - apply b64_finite. rewrite (Qabs_wd _ _ Hx).
    apply Qabs_Qle_condition. split; lra.
  - rewrite <- Hx. apply (b64_nearest_exact _ w k).
    + exact Hx.
    + unfold prec. lia.
    + unfold emin, prec. lia.
Qed.

(** The two decoders on a 16-bit word: defined, and exact. *)
Lemma decode_word_values (w : Z) :
  (0 <= w <= 65535)%Z ->
  exists t h : Q,
    decode_temperature w = Some t
    /\ t == inject_Z w / 64 - kelvin_offset
    /\ decode_humidity w = Some h
    /\ h == inject_Z w / 512.
Proof.
  intros Hw. pose proof (word_magnitude w Hw) as [Hlo Hhi].
  destruct (of_int_word w Hw) as [Ho Er].
  set (r := b64_nearest (inject_Z w)) in *.
  destruct (scaled_word_exact w r (-6) Hw ltac:(lia) Er) as [F6 E6].
  destruct (scaled_word_exact w r (-9) Hw ltac:(lia) Er) as [F9 E9].
  change (pow2 (-6)) with (1 # 64) in F6, E6.
  change (pow2 (-9)) with (1 # 512) in F9, E9.
  set (k := b64_nearest (r * (1 # 64))) in *.
  assert (Hsub : k - kelvin_offset
                 == inject_Z (w * 137438953472 - 2402652809016115) * pow2 (-43)).
  { rewrite E6. unfold Z.sub.
    rewrite inject_Z_plus, inject_Z_mult, inject_Z_opp.
    change (pow2 (-43)) with (1 # 8796093022208).
    unfold kelvin_offset.
    change (inject_Z 137438953472) with 137438953472.
    change (inject_Z 2402652809016115) with 2402652809016115.
    field. }
  assert (Ht : b64_nearest (k - kelvin_offset) == k - kelvin_offset).
  { apply (b64_nearest_exact _ _ _ Hsub).
    - unfold prec. lia.
    - unfold emin, prec. lia. }
  assert (Fk : b64 (k - kelvin_offset) = Some (b64_nearest (k - kelvin_offset))).
  { apply b64_finite. rewrite E6. unfold kelvin_offset.
    apply Qabs_Qle_condition. split; lra. }
  exists (b64_nearest (k - kelvin_offset)), (b64_nearest (r * (1 # 512))).
  split; [|split; [|split]].
  - unfold decode_temperature, fdiv, fsub.
    rewrite Ho, lit_64, lit_kelvin_offset. cbn [and_then].
    change (r / 64) with (r * (1 # 64)). rewrite F6. cbn [and_then].
    exact Fk.
  - rewrite Ht, E6. unfold Qdiv. change (/ 64) with (1 # 64). reflexivity.
  - unfold decode_humidity, fdiv. rewrite Ho, lit_512. cbn [and_then].
    change (r / 512) with (r * (1 # 512)). exact F9.
  - rewrite E9. unfold Qdiv. change (/ 512) with (1 # 512). reflexivity.
Qed.

(** X5. Decoding is exact on every 16-bit word.  The reference temperature is
    [word / 64] less the double [273.15], and the relative humidity is
    [word / 512]: neither division nor the subtraction rounds, and nothing
    overflows.  So the temperature read back lies between -273.15 and 750.84
    degrees and the humidity between 0 and 128 percent, which is beyond any
    physical humidity: the poll stores it unchecked. *)
Theorem decode_word_exact (w : Z) :
  (0 <= w <= 65535)%Z ->
  exists t h : Q,
    decode_temperature w = Some t
    /\ t == inject_Z w / 64 - kelvin_offset
    /\ - (27315 # 100) <= t <= 75084 # 100
    /\ decode_humidity w = Some h
    /\ h == inject_Z w / 512
    /\ 0 <= h < 128.
Proof.
  intros Hw. pose proof (word_magnitude w Hw) as [Hlo Hhi].
  destruct (decode_word_values w Hw) as (t & h & Dt & Et & Dh & Eh).
  exists t, h. repeat split; try assumption.
  - rewrite Et. unfold kelvin_offset, Qdiv. change (/ 64) with (1 # 64). lra.
  - rewrite Et. unfold kelvin_offset, Qdiv. change (/ 64) with (1 # 64). lra.
  - rewrite Eh. unfold Qdiv. change (/ 512) with (1 # 512). lra.
  - rewrite Eh. unfold Qdiv. change (/ 512) with (1 # 512). lra.
Qed.

(** [float(512)] is 512. *)
Lemma of_int_512 : of_int 512 = Some 512.
Proof. vm_compute. reflexivity. Qed.

(** X6. Every 16-bit word is a fixed point of decode-then-encode: the value a
    poll reads back, handed to the setter, is encoded to the very word the
    chip held.  It holds for the temperature and for the humidity. *)
Theorem word_round_trip (w : Z) :
  (0 <= w <= 65535)%Z ->
  exists t h : Q,
    decode_temperature w = Some t
    /\ encode_temperature t = Some w
    /\ decode_humidity w = Some h
    /\ encode_humidity h = Some w.
Proof.
  intros Hw. pose proof (word_magnitude w Hw) as [Hlo Hhi].
  destruct (decode_word_values w Hw) as (t & h & Dt & Et & Dh & Eh).
  exists t, h. split; [exact Dt|]. split; [|split; [exact Dh|]].
  - unfold encode_temperature, fadd, fmul.
    rewrite lit_64, lit_kelvin_offset.
    assert (E1 : t + kelvin_offset == inject_Z w * pow2 (-6)).
    { rewrite Et. change (pow2 (-6)) with (1 # 64). unfold Qdiv.
      change (/ 64) with (1 # 64). ring. }
    assert (B1 : Qabs (t + kelvin_offset) <= 131072).
    { rewrite (Qabs_wd _ _ E1). change (pow2 (-6)) with (1 # 64).
      apply Qabs_Qle_condition. split; lra. }
    rewrite (b64_finite _ B1). cbn [and_then].
    assert (X1 : b64_nearest (t + kelvin_offset) == t + kelvin_offset).
    { apply (b64_nearest_exact _ w (-6) E1); unfold emin, prec; lia. }
    set (kelvin := b64_nearest (t + kelvin_offset)) in *.
    assert (E2 : kelvin * 64 == inject_Z w * pow2 0).
    { rewrite X1, E1. change (pow2 (-6)) with (1 # 64).
      change (pow2 0) with 1. ring. }
    assert (B2 : Qabs (kelvin * 64) <= 131072).
    { rewrite (Qabs_wd _ _ E2). change (pow2 0) with 1.
      apply Qabs_Qle_condition. split; lra. }
    rewrite (b64_finite _ B2). cbn [and_then].
    assert (X2 : b64_nearest (kelvin * 64) == inject_Z w).
    { rewrite (b64_nearest_exact _ w 0 E2) by (unfold emin, prec; lia).
      rewrite E2. change (pow2 0) with 1. ring. }
    rewrite (py_round_Qeq _ _ X2), py_round_inject. reflexivity.
  - unfold encode_humidity, fmul. rewrite of_int_512. cbn [and_then].
    assert (E1 : h * 512 == inject_Z w * pow2 0).
    { rewrite Eh. change (pow2 0) with 1. unfold Qdiv.
      change (/ 512) with (1 # 512). ring. }
    assert (B1 : Qabs (h * 512) <= 131072).
    { rewrite (Qabs_wd _ _ E1). change (pow2 0) with 1.
      apply Qabs_Qle_condition. split; lra. }
    rewrite (b64_finite _ B1). cbn [and_then].
    assert (X1 : b64_nearest (h * 512) == inject_Z w).
    { rewrite (b64_nearest_exact _ w 0 E1) by (unfold emin, prec; lia).
      rewrite E1. change (pow2 0) with 1. ring. }
    rewrite (py_round_Qeq _ _ X1), py_round_inject. reflexivity.
Qed.

End CodecWords.

(* ================================================================== *)
(** * Register words and the interrupt configuration *)
(* ================================================================== *)

Section Words.

Import PyNum Driver.

(** A byte has no bit from 8 up. *)
Lemma byte_high_bits (b n : Z) :
  0 <= b <= 255 -> 8 <= n -> Z.testbit b n = false.
Proof.
  intros Hb Hn. rewrite <- (Z.mod_small b (2 ^ 8)) by lia.
  apply Z.mod_pow2_bits_high. lia.
Qed.

Lemma word_le_sum (low high : Z) :
  0 <= low <= 255 -> word_le low high = low + 256 * high.
Proof.
  intros Hl. unfold word_le.
  pose proof (Z.add_lor_land low (Z.shiftl high 8)) as E.
  assert (D : Z.land low (Z.shiftl high 8) = 0).
  { apply Z.bits_inj'. intros n Hn.
    rewrite Z.land_spec, Z.bits_0.
    destruct (Z.lt_ge_cases n 8) as [L|G].
    - rewrite Z.shiftl_spec_low by lia. apply andb_false_r.
    - rewrite (byte_high_bits low n) by lia. reflexivity. }
  rewrite D in E. rewrite Z.shiftl_mul_pow2 in E |- * by lia.
  change (2 ^ 8) with 256 in *. lia.
Qed.

(** X4. [low | (high << 8)] on two bytes is the 16-bit little-endian word
    [low + 256 * high], and the two bytes can be read back from it: the low
    byte by masking, the high byte by shifting. *)
Theorem word_le_bytes (low high : Z) :
  0 <= low <= 255 ->
  0 <= high <= 255 ->
  word_le low high = low + 256 * high
  /\ 0 <= word_le low high <= 65535
  /\ Z.land (word_le low high) 255 = low
  /\ Z.shiftr (word_le low high) 8 = high.
Proof.
  intros Hl Hh. rewrite (word_le_sum low high Hl).
  split; [reflexivity|]. split; [lia|]. split.
  - change 255 with (Z.ones 8). rewrite Z.land_ones by lia.
    change (2 ^ 8) with 256.
    rewrite (Z.mul_comm 256 high), Z.mod_add by lia.
    apply Z.mod_small. lia.
  - rewrite Z.shiftr_div_pow2 by lia. change (2 ^ 8) with 256.
    rewrite (Z.mul_comm 256 high), Z.div_add by lia.
    rewrite (Z.div_small low 256) by lia. lia.
Qed.

(** The configuration byte, flag by flag. *)
Lemma irq_config_bits (enable active_low open_drain assert_data assert_gpr : bool) :
  let reg := irq_config enable active_low open_drain assert_data assert_gpr in
  Z.testbit reg 0 = enable
  /\ Z.testbit reg 1 = assert_data
  /\ Z.testbit reg 3 = assert_gpr
  /\ Z.testbit reg 5 = open_drain
  /\ Z.testbit reg 6 = active_low
  /\ Z.testbit reg 2 = false
  /\ Z.testbit reg 4 = false
  /\ Z.testbit reg 7 = false
  /\ 0 <= reg <= 0x6b.
Proof.
  destruct enable, active_low, open_drain, assert_data, assert_gpr;
    vm_compute; repeat split; discriminate.
Qed.

End Words.

(* ================================================================== *)
(** * Interrupt set-up and the public mode operations *)
(* ================================================================== *)

Section Configuration.

Import PyNum Driver.

Context {W : Type} {P : Platform W}.

(** The state after one byte written on the bus. *)
Definition wrote_byte (reg value : Z) (s : state W) : state W :=
  {| self := self s;
     world := write_byte_data (address (self s)) reg value (world s);
     calls := calls s ++ [WriteByte (address (self s)) reg value] |}.

(** The state after one word written on the bus. *)
Definition wrote_word (reg value : Z) (s : state W) : state W :=
  {| self := self s;
     world := write_word_data (address (self s)) reg value (world s);
     calls := calls s ++ [WriteWord (address (self s)) reg value] |}.

(** X1. [irq_setup] always returns, after exactly one write, to the configuration
    register 0x11, leaving the handle as it was.  In the byte written, bit 0
    is [enable], bit 1 [assert_data], bit 3 [assert_gpr], bit 5 [open_drain]
    and bit 6 [active_low]; bits 2, 4 and 7 are never set.  So two calls
    that differ in a flag write different bytes. *)
Theorem irq_setup_writes_flags
    (s : state W) (enable active_low open_drain assert_data assert_gpr : bool) :
  exists reg : Z,
    irq_setup enable active_low open_drain assert_data assert_gpr s
    = Returns tt (wrote_byte REG_CONFIG reg s)
    /\ REG_CONFIG = 0x11
    /\ Z.testbit reg 0 = enable
    /\ Z.testbit reg 1 = assert_data
    /\ Z.testbit reg 3 = assert_gpr
    /\ Z.testbit reg 5 = open_drain
    /\ Z.testbit reg 6 = active_low
    /\ Z.testbit reg 2 = false
    /\ Z.testbit reg 4 = false
    /\ Z.testbit reg 7 = false
    /\ 0 <= reg <= 0x6b.
Proof.
  exists (irq_config enable active_low open_drain assert_data assert_gpr).
  split; [reflexivity|]. split; [reflexivity|].
  apply irq_config_bits.
Qed.

(** X2. The mode-set accepts exactly the three codes.  It returns when, and only
    when, the code is 0x0, 0x1 or 0x2, after exactly one write, of that
    code, to the mode register 0x10; otherwise it raises in the state it
    was called in.  The handle is never changed.  So [shutdown], [idle] and
    [wakeup] never raise: they write 0x0, 0x1 and 0x2. *)
Theorem set_operating_mode_accepts (s : state W) (mode : Z) :
  match _set_operating_mode mode s with
  | Returns _ s' =>
      (mode = 0x0 \/ mode = 0x1 \/ mode = 0x2)
      /\ s' = wrote_byte 0x10 mode s
  | Raises _ s' =>
      ~ (mode = 0x0 \/ mode = 0x1 \/ mode = 0x2) /\ s' = s
  | Unfinished => False
  end
  /\ shutdown s = Returns tt (wrote_byte 0x10 0x0 s)
  /\ idle s = Returns tt (wrote_byte 0x10 0x1 s)
  /\ wakeup s = Returns tt (wrote_byte 0x10 0x2 s).
Proof.
  split; [|repeat split].
  unfold _set_operating_mode. cbn [existsb].
  unfold OPMODE_DEEP_SLEEP, OPMODE_IDLE, OPMODE_STANDARD.
  destruct (Z.eqb_spec mode 0) as [->|N0]; [split; [auto | reflexivity]|].
  destruct (Z.eqb_spec mode 1) as [->|N1]; [split; [auto | reflexivity]|].
  destruct (Z.eqb_spec mode 2) as [->|N2]; [split; [auto | reflexivity]|].
  cbn. split; [|reflexivity]. intros [E|[E|E]]; contradiction.
Qed.

(** X3. The wait on a status bit never raises, changes no attribute of the
    handle and writes nothing on the bus, whatever the bit awaited and the
    answers of the bus: all it does is read the status register and sleep. *)
Theorem wait_only_reads_and_sleeps (fuel : nat) (bit : Z) :
  forall s : state W,
    match _wait_on_status_bit fuel bit s with
    | Returns _ s' =>
        self s' = self s
        /\ filter is_write (calls s') = filter is_write (calls s)
    | Raises _ _ => False
    | Unfinished => True
    end.
Proof.
  induction fuel as [|fuel IH]; intros s; [exact I|].
  rewrite wait_step.
  destruct (truthy (Z.land (status_read s) bit)).
  - split; [reflexivity|].
    unfold after_status. cbn [calls]. rewrite filter_app. cbn.
    apply app_nil_r.
  - specialize (IH (round s)).
    destruct (_wait_on_status_bit fuel bit (round s)) as [u s'|e s'|];
      [|exact IH|exact IH].
    destruct IH as [A B]. split; [exact A|].
    rewrite B. unfold round, after_status. cbn [calls].
    rewrite !filter_app. cbn. rewrite !app_nil_r. reflexivity.
Qed.

End Configuration.

(* ================================================================== *)
(** * More on polling *)
(* ================================================================== *)

Section PollingMore.

Import PyNum Driver.

Context {W : Type} {P : Platform W}.

(** The three early exits of [do_measure]. *)
Lemma do_measure_gate (s : state W) :
  truthy (statas (status_read s)) = false
  \/ truthy (stater (status_read s)) = true
  \/ validity (status_read s) = VALIDITY_INVALID ->
  do_measure s = Returns false (after_status s).
Proof.
  intros H. unfold do_measure. rewrite bind_status. cbv beta zeta.
  destruct (truthy (statas (status_read s))) eqn:A; [|reflexivity].
  destruct (truthy (stater (status_read s))) eqn:B; [reflexivity|].
  destruct (Z.eqb_spec (validity (status_read s)) VALIDITY_INVALID) as [C|C];
    [reflexivity|].
  destruct H as [H|[H|H]]; [discriminate | discriminate | contradiction].
Qed.

(** X7. When the chip is not running (bit 7 clear), or flags an error (bit 6
    set), or reports validity Invalid (bits 3:2 both set), the poll returns
    [False] even if the data-fresh bit is set: the handle is unchanged, the
    status read is the only call, and the data registers are not read. *)
Theorem do_measure_gated (s : state W) :
  Z.testbit (status_read s) 7 = false
  \/ Z.testbit (status_read s) 6 = true
  \/ (Z.testbit (status_read s) 3 = true /\ Z.testbit (status_read s) 2 = true) ->
  exists s',
    do_measure s = Returns false s'
    /\ self s' = self s
    /\ calls s' = calls s ++ [ReadByte (address (self s)) REG_STATUS (status_read s)].
Proof.
  intros H. exists (after_status s). split; [|split; reflexivity].
  apply do_measure_gate.
  rewrite statas_bit, stater_bit, validity_bits.
  destruct H as [H|[H|[H3 H2]]]; [left; exact H | right; left; exact H|].
  right; right. rewrite H3, H2. reflexivity.
Qed.

Lemma bind_ret_value {A B} (m : M W A) (v b : B) (s s' : state W) :
  bind m (fun _ => ret v) s = Returns b s' -> b = v.
Proof.
  unfold bind, ret. destruct (m s); intros E; [|discriminate|discriminate].
  injection E as E _. symmetry. exact E.
Qed.

(** X8. Whenever the poll returns, the value returned is read off the status
    byte: [True] exactly when bit 7 is set, bit 6 is clear, bits 3:2 are not
    both set and bit 1 is set. *)
Theorem do_measure_result (s s' : state W) (b : bool) :
  do_measure s = Returns b s' ->
  b = Z.testbit (status_read s) 7
      && negb (Z.testbit (status_read s) 6)
      && negb (Z.testbit (status_read s) 3 && Z.testbit (status_read s) 2)
      && Z.testbit (status_read s) 1.
Proof.
  unfold do_measure. rewrite bind_status. cbv beta zeta.
  rewrite <- statas_bit, <- stater_bit, <- new_data_bit.
  assert (V : (validity (status_read s) =? VALIDITY_INVALID)
              = Z.testbit (status_read s) 3 && Z.testbit (status_read s) 2).
  { rewrite validity_bits.
    destruct (Z.testbit (status_read s) 3), (Z.testbit (status_read s) 2);
      reflexivity. }
  rewrite <- V.
  destruct (truthy (statas (status_read s))); cbn [negb andb];
    [|intros E; injection E as <- _; reflexivity].
  destruct (truthy (stater (status_read s))); cbn [negb andb];
    [intros E; injection E as <- _; reflexivity|].
  destruct (validity (status_read s) =? VALIDITY_INVALID); cbn [negb andb];
    [intros E; injection E as <- _; reflexivity|].
  intros E. apply bind_ret_value in E. exact E.
Qed.

(** ** What no poll does *)

(** A call that asks and changes nothing: a bus read or a clock read. *)
Definition is_query (c : call) : bool :=
  match c with
  | ReadByte _ _ _ | ReadWord _ _ _ | ReadBlock _ _ _ _ | Time _ => true
  | _ => false
  end.

(** How a poll may move the state: the log grows by queries only; address
    and firmware string stay; the stored validity stays, or becomes one of
    Normal, WarmUp, InitialStartup. *)
Definition poll_step (s s' : state W) : Prop :=
  (exists l, calls s' = calls s ++ l /\ forallb is_query l = true)
  /\ address (self s') = address (self s)
  /\ _firmware (self s') = _firmware (self s)
  /\ (_validity (self s') = _validity (self s)
      \/ exists v, _validity (self s') = Some v /\ 0 <= v <= 2).

(** A computation that ends, and whose every end is a [poll_step] away. *)
Definition polls {A} (m : M W A) : Prop :=
  forall s, match m s with
            | Returns _ s' | Raises _ s' => poll_step s s'
            | Unfinished => False
            end.

Lemma poll_step_refl (s : state W) : poll_step s s.
Proof.
  repeat split; auto. exists []. rewrite app_nil_r. split; reflexivity.
Qed.

Lemma poll_step_trans (s t u : state W) :
  poll_step s t -> poll_step t u -> poll_step s u.
Proof.
  intros ((l1 & L1 & Q1) & A1 & F1 & V1) ((l2 & L2 & Q2) & A2 & F2 & V2).
  repeat split.
  - exists (l1 ++ l2). rewrite L2, L1, app_assoc, forallb_app, Q1, Q2.
    split; reflexivity.
  - congruence.
  - congruence.
  - destruct V2 as [V2|V2]; [|right; exact V2].
    rewrite V2. exact V1.
Qed.

Lemma polls_ret {A} (a : A) : polls (ret a).
Proof. intros s. apply poll_step_refl. Qed.

Lemma polls_raise {A} (e : exn) : polls (@raise W A e).
Proof. intros s. apply poll_step_refl. Qed.

Lemma polls_bind {A B} (m : M W A) (k : A -> M W B) :
  polls m -> (forall a, polls (k a)) -> polls (bind m k).
Proof.
  intros Hm Hk s. unfold bind. specialize (Hm s).
  destruct (m s) as [a t|e t|]; [|exact Hm|exact Hm].
  specialize (Hk a t).
  destruct (k a t) as [b u|e u|]; [| |exact Hk];
    exact (poll_step_trans _ _ _ Hm Hk).
Qed.

Lemma polls_item (l : list Z) (i : nat) : polls (item l i).
Proof. unfold item. destruct (nth_error l i); [apply polls_ret | apply polls_raise]. Qed.

Lemma polls_finite {A} (r : option A) : polls (finite r).
Proof. unfold finite. destruct r; [apply polls_ret | apply polls_raise]. Qed.

Lemma polls_query {A} (m : M W A) :
  (forall s, exists a w c,
      m s = Returns a {| self := self s; world := w; calls := calls s ++ [c] |}
      /\ is_query c = true) ->
  polls m.
Proof.
  intros H s. destruct (H s) as (a & w & c & E & Q). rewrite E.
  repeat split; auto. exists [c]. cbn. rewrite Q. split; reflexivity.
Qed.

Lemma polls_read_byte (reg : Z) : polls (bus_read_byte_data reg).
Proof. apply polls_query. intros s. do 3 eexists. split; reflexivity. Qed.

Lemma polls_read_block (reg len : Z) : polls (bus_read_i2c_block_data reg len).
Proof. apply polls_query. intros s. do 3 eexists. split; reflexivity. Qed.

Lemma polls_time : polls time_dot_time.
Proof. apply polls_query. intros s. do 3 eexists. split; reflexivity. Qed.

(** An assignment that keeps address, firmware and validity. *)
Lemma polls_assign (f : Ens160 -> Ens160) :
  (forall o, address (f o) = address o
             /\ _firmware (f o) = _firmware o
             /\ _validity (f o) = _validity o) ->
  polls (assign f).
Proof.
  intros H s. destruct (H (self s)) as (A & F & V).
  repeat split; cbn; auto.
  exists []. rewrite app_nil_r. split; reflexivity.
Qed.

Lemma polls_assign_validity (v : Z) :
  0 <= v <= 2 -> polls (assign (with_validity v)).
Proof.
  intros Hv s. repeat split; cbn; auto.
  - exists []. rewrite app_nil_r. split; reflexivity.
  - right. exists v. split; [reflexivity | exact Hv].
Qed.

Lemma validity_range (status : Z) : 0 <= validity status <= 3.
Proof.
  rewrite validity_bits.
  destruct (Z.testbit status 3), (Z.testbit status 2); cbn; lia.
Qed.

Lemma do_measure_polls : polls do_measure.
Proof.
  unfold do_measure. apply polls_bind; [apply polls_read_byte|]. intros status.
  destruct (truthy (statas status)); cbn [negb]; [|apply polls_ret].
  destruct (truthy (stater status)); [apply polls_ret|].
  destruct (Z.eqb_spec (validity status) VALIDITY_INVALID) as [E|E];
    [apply polls_ret|].
  cbv zeta.
  assert (Hv : 0 <= validity status <= 2).
  { pose proof (validity_range status). unfold VALIDITY_INVALID in E. lia. }
  destruct (truthy (new_data status));
    repeat first
      [ apply polls_ret | apply polls_item | apply polls_finite
      | apply polls_read_byte | apply polls_read_block | apply polls_time
      | apply (polls_assign_validity _ Hv)
      | apply polls_assign; intros o; repeat split
      | apply polls_bind; [|intros] ].
Qed.

(** X9. A poll is read-only towards the chip.  However it ends, by a return or
    by an exception, everything it added to the log is a bus read or a clock
    read: it writes no register and never sleeps.  And it does end. *)
Theorem do_measure_read_only (s : state W) :
  match do_measure s with
  | Returns _ s' | Raises _ s' =>
      exists l : list call,
        calls s' = calls s ++ l
        /\ filter is_write l = []
        /\ forallb is_query l = true
  | Unfinished => False
  end.
Proof.
  assert (F : forall l, forallb is_query l = true -> filter is_write l = []).
  { induction l as [|c l IH]; [reflexivity|]. cbn. intros Q.
    apply andb_prop in Q. destruct Q as [Qc Ql].
    destruct c; try discriminate; cbn; apply IH; exact Ql. }
  pose proof (do_measure_polls s) as H.
  destruct (do_measure s) as [b s'|e s'|]; [| |exact H];
    destruct H as ((l & L & Q) & _); exists l; auto.
Qed.

(** X10. A poll never stores the validity Invalid, and never touches the address
    or the firmware string.  However it ends, the stored validity is what it
    was before, or one of Normal (0), WarmUp (1) and InitialStartup (2). *)
Theorem do_measure_keeps_validity_valid (s : state W) :
  match do_measure s with
  | Returns _ s' | Raises _ s' =>
      address (self s') = address (self s)
      /\ firmware (self s') = firmware (self s)
      /\ (_validity (self s') = _validity (self s)
          \/ _validity (self s') = Some VALIDITY_NORMAL
          \/ _validity (self s') = Some VALIDITY_WARM_UP
          \/ _validity (self s') = Some VALIDITY_INITIAL_STARTUP)
  | Unfinished => False
  end.
Proof.
  pose proof (do_measure_polls s) as H.
  destruct (do_measure s) as [b s'|e s'|]; [| |exact H];
    destruct H as (_ & A & F & V); (split; [exact A|split; [exact F|]]);
    (destruct V as [V|(v & V & Hv)]; [left; exact V|right]);
    rewrite V; unfold VALIDITY_NORMAL, VALIDITY_WARM_UP, VALIDITY_INITIAL_STARTUP;
    assert (C : v = 0 \/ v = 1 \/ v = 2) by lia;
    destruct C as [-> | [-> | ->]]; auto.
Qed.

(** ** A poll on well-formed answers *)

(** Blocks of the lengths asked for, made of bytes. *)
Definition is_byte (b : Z) : Prop := 0 <= b <= 255.

Definition well_formed_answers (s : state W) : Prop :=
  List.length (fst (aq_read s)) = 5%nat
  /\ Forall is_byte (fst (aq_read s))
  /\ List.length (fst (ref_read s)) = 4%nat
  /\ Forall is_byte (fst (ref_read s)).

(** The status byte lets the poll through to the data registers. *)
Definition lets_through (status : Z) : Prop :=
  Z.testbit status 7 = true
  /\ Z.testbit status 6 = false
  /\ (Z.testbit status 3 && Z.testbit status 2 = false)
  /\ Z.testbit status 1 = true.

Lemma lets_through_flags (status : Z) :
  lets_through status ->
  truthy (statas status) = true
  /\ truthy (stater status) = false
  /\ validity status <> VALIDITY_INVALID
  /\ truthy (new_data status) = true.
Proof.
  intros (H7 & H6 & H32 & H1).
  rewrite statas_bit, stater_bit, new_data_bit, validity_bits.
  repeat split; auto.
  destruct (Z.testbit status 3), (Z.testbit status 2);
    discriminate.
Qed.

Lemma list_of_length_5 (l : list Z) :
  List.length l = 5%nat -> exists a b c d e, l = [a; b; c; d; e].
Proof.
  destruct l as [|a [|b [|c [|d [|e [|f l]]]]]]; try discriminate.
  intros _. do 5 eexists. reflexivity.
Qed.

Lemma list_of_length_4 (l : list Z) :
  List.length l = 4%nat -> exists a b c d, l = [a; b; c; d].
Proof.
  destruct l as [|a [|b [|c [|d [|e l]]]]]; try discriminate.
  intros _. do 4 eexists. reflexivity.
Qed.

(** The state such a poll ends in. *)
Lemma do_measure_well_formed_state (s : state W) :
  lets_through (status_read s) ->
  well_formed_answers s ->
  exists (a0 a1 a2 a3 a4 r0 r1 r2 r3 : Z) (T H : Q),
    fst (aq_read s) = [a0; a1; a2; a3; a4]
    /\ Forall is_byte [a0; a1; a2; a3; a4]
    /\ fst (ref_read s) = [r0; r1; r2; r3]
    /\ Forall is_byte [r0; r1; r2; r3]
    /\ decode_temperature (word_le r0 r1) = Some T
    /\ (T == inject_Z (word_le r0 r1) / 64 - kelvin_offset)%Q
    /\ decode_humidity (word_le r2 r3) = Some H
    /\ (H == inject_Z (word_le r2 r3) / 512)%Q
    /\ do_measure s
       = Returns true
           {| self := {| address := address (self s);
                         _aqi := Some a0;
                         _tvoc := Some (word_le a1 a2);
                         _eco2 := Some (word_le a3 a4);
                         _time := Some (fst (clock_read s));
                         _ref_temp := Some T;
                         _ref_humidity := Some H;
                         _validity := Some (validity (status_read s));
                         _firmware := _firmware (self s) |};
              world := snd (clock_read s);
              calls := calls s ++ poll_calls s |}.
Proof.
  intros Hst (La & Fa & Lr & Fr).
  destruct (lets_through_flags _ Hst) as (Hrun & Herr & Hval & Hnew).
  destruct (list_of_length_5 _ La) as (a0 & a1 & a2 & a3 & a4 & Ea).
  destruct (list_of_length_4 _ Lr) as (r0 & r1 & r2 & r3 & Er).
  rewrite Ea in Fa. rewrite Er in Fr.
  assert (B : is_byte r0 /\ is_byte r1 /\ is_byte r2 /\ is_byte r3).
  { inversion Fr as [|? ? I0 Fr1]; inversion Fr1 as [|? ? I1 Fr2];
      inversion Fr2 as [|? ? I2 Fr3]; inversion Fr3 as [|? ? I3 _]; auto. }
  destruct B as (B0 & B1 & B2 & B3). unfold is_byte in B0, B1, B2, B3.
  destruct (word_le_bytes r0 r1 B0 B1) as (_ & W01 & _).
  destruct (word_le_bytes r2 r3 B2 B3) as (_ & W23 & _).
  destruct (decode_word_values _ W01) as (T & _ & DT & ET & _ & _).
  destruct (decode_word_values _ W23) as (_ & H & _ & _ & DH & EH).
  exists a0, a1, a2, a3, a4, r0, r1, r2, r3, T, H.
  repeat (split; [assumption|]).
  apply (do_measure_fresh s a0 a1 a2 a3 a4 r0 r1 r2 r3 T H); assumption.
Qed.

(** X11. On a status byte that lets the poll through and blocks of 5 and 4 bytes,
    the poll returns [True] and never raises.  The air-quality index is byte
    0 of the first block, TVOC its bytes 1-2 and eCO2 its bytes 3-4, both
    little-endian; the reference temperature is bytes 0-1 of the second
    block over 64, less the double [273.15], and the reference humidity its
    bytes 2-3 over 512, both without rounding.  Hence aqi fits 8 bits, TVOC
    and eCO2 16 bits, the temperature lies in [-273.15, 750.84] and the
    humidity in [0, 128). *)
Theorem do_measure_well_formed (s : state W) :
  lets_through (status_read s) ->
  well_formed_answers s ->
  let aq := fst (aq_read s) in
  let rf := fst (ref_read s) in
  exists (s' : state W) (t h : Q),
    do_measure s = Returns true s'
    /\ aqi (self s') = Some (nth 0 aq 0)
    /\ tvoc (self s') = Some (nth 1 aq 0 + 256 * nth 2 aq 0)
    /\ eco2 (self s') = Some (nth 3 aq 0 + 256 * nth 4 aq 0)
    /\ ref_temp (self s') = Some t
    /\ (t == inject_Z (nth 0 rf 0 + 256 * nth 1 rf 0)%Z / 64 - kelvin_offset)%Q
    /\ ref_humidity (self s') = Some h
    /\ (h == inject_Z (nth 2 rf 0 + 256 * nth 3 rf 0)%Z / 512)%Q
    /\ Driver.time (self s') = Some (fst (clock_read s))
    /\ 0 <= nth 0 aq 0 <= 255
    /\ 0 <= nth 1 aq 0 + 256 * nth 2 aq 0 <= 65535
    /\ 0 <= nth 3 aq 0 + 256 * nth 4 aq 0 <= 65535
    /\ (- (27315 # 100) <= t <= 75084 # 100)%Q
    /\ (0 <= h < 128)%Q.
Proof.
  intros Hst Hwf aq rf.
  destruct (do_measure_well_formed_state s Hst Hwf)
    as (a0 & a1 & a2 & a3 & a4 & r0 & r1 & r2 & r3 & T & H
        & Ea & Fa & Er & Fr & DT & ET & DH & EH & Run).
  subst aq rf. rewrite Ea, Er. cbn [nth].
  assert (Ba : is_byte a0 /\ is_byte a1 /\ is_byte a2 /\ is_byte a3 /\ is_byte a4).
  { inversion Fa as [|? ? I0 F1]; inversion F1 as [|? ? I1 F2];
      inversion F2 as [|? ? I2 F3]; inversion F3 as [|? ? I3 F4];
      inversion F4 as [|? ? I4 _]; auto. }
  assert (Br : is_byte r0 /\ is_byte r1 /\ is_byte r2 /\ is_byte r3).
  { inversion Fr as [|? ? I0 F1]; inversion F1 as [|? ? I1 F2];
      inversion F2 as [|? ? I2 F3]; inversion F3 as [|? ? I3 _]; auto. }
  destruct Ba as (A0 & A1 & A2 & A3 & A4). destruct Br as (R0 & R1 & R2 & R3).
  unfold is_byte in *.
  rewrite (word_le_sum a1 a2 A1), (word_le_sum a3 a4 A3) in Run.
  rewrite (word_le_sum r0 r1 R0) in ET. rewrite (word_le_sum r2 r3 R2) in EH.
  assert (W01 : (0 <= r0 + 256 * r1 <= 65535)) by lia.
  assert (W23 : (0 <= r2 + 256 * r3 <= 65535)) by lia.
  pose proof (word_magnitude _ W01) as [L01 U01].
  pose proof (word_magnitude _ W23) as [L23 U23].
  eexists. exists T, H. split; [exact Run|].
  cbn [self aqi tvoc eco2 ref_temp ref_humidity Driver.time
       _aqi _tvoc _eco2 _ref_temp _ref_humidity _time].
  repeat match goal with |- _ /\ _ => split end;
    try reflexivity; try assumption; try lia.
  - rewrite ET. unfold kelvin_offset, Qdiv. change (/ 64)%Q with (1 # 64)%Q. lra.
  - rewrite ET. unfold kelvin_offset, Qdiv. change (/ 64)%Q with (1 # 64)%Q. lra.
  - rewrite EH. unfold Qdiv. change (/ 512)%Q with (1 # 512)%Q. lra.
  - rewrite EH. unfold Qdiv. change (/ 512)%Q with (1 # 512)%Q. lra.
Qed.

(** X12. After such a poll the two validity properties read bits 3:2 of the
    status byte: [is_warm_up] holds when they are 01, [is_initial_startup]
    when they are 10, and never both. *)
Theorem validity_flags_after_poll (s : state W) :
  lets_through (status_read s) ->
  well_formed_answers s ->
  exists s' : state W,
    do_measure s = Returns true s'
    /\ is_warm_up (self s')
       = negb (Z.testbit (status_read s) 3) && Z.testbit (status_read s) 2
    /\ is_initial_startup (self s')
       = Z.testbit (status_read s) 3 && negb (Z.testbit (status_read s) 2)
    /\ is_warm_up (self s') && is_initial_startup (self s') = false.
Proof.
  intros Hst Hwf.
  destruct (do_measure_well_formed_state s Hst Hwf)
    as (a0 & a1 & a2 & a3 & a4 & r0 & r1 & r2 & r3 & T & H
        & _ & _ & _ & _ & _ & _ & _ & _ & Run).
  eexists. split; [exact Run|].
  unfold is_warm_up, is_initial_startup. cbn [self _validity].
  rewrite validity_bits.
  destruct (Z.testbit (status_read s) 3), (Z.testbit (status_read s) 2);
    repeat split.
Qed.

End PollingMore.

(* ================================================================== *)
(** * Bring-up to the end *)
(* ================================================================== *)

Section BringUpMore.

Import PyNum Driver.

Context {W : Type} {P : Platform W}.

(** The state bring-up is in once a genuine part has been asked for its
    firmware version: reset, settle delay, Idle, identity read, command. *)
Definition commanded (bus : W) (addr : Z) : state W :=
  {| self := fresh addr;
     world := write_byte_data addr REG_COMMAND COMMAND_GET_APPVER
                (snd (identity_read bus addr));
     calls := [WriteByte addr REG_OP_MODE OPMODE_RESET;
               Sleep (lit (1 # 100));
               WriteByte addr REG_OP_MODE OPMODE_IDLE;
               ReadWord addr REG_PART_ID (fst (identity_read bus addr));
               WriteByte addr REG_COMMAND COMMAND_GET_APPVER] |}.

(** The state once the status byte has shown gpr-fresh, at read [k]. *)
Definition answered (k : nat) (bus : W) (addr : Z) : state W :=
  after_status (rounds k (commanded bus addr)).

(** The three firmware bytes the bus answers then. *)
Definition version_read (k : nat) (bus : W) (addr : Z) : list Z * W :=
  read_i2c_block_data addr (REG_GPR_READ_START + 4) 3
    (world (answered k bus addr)).

Lemma default_temperature_word : encode_temperature DEFAULT_TEMPERATURE = Some 18762.
Proof. vm_compute. reflexivity. Qed.

Lemma default_humidity_word : encode_humidity DEFAULT_HUMIDITY = Some 25600.
Proof. vm_compute. reflexivity. Qed.

Lemma round_keeps (s : state W) :
  self (round s) = self s
  /\ filter is_write (calls (round s)) = filter is_write (calls s).
Proof.
  split; [reflexivity|].
  unfold round, after_status. cbn [calls].
  rewrite !filter_app. cbn. rewrite !app_nil_r. reflexivity.
Qed.

(** Waiting changes no attribute and writes nothing. *)
Lemma rounds_keep (k : nat) :
  forall s : state W,
    self (rounds k s) = self s
    /\ filter is_write (calls (rounds k s)) = filter is_write (calls s).
Proof.
  induction k as [|k IH]; intros s; [split; reflexivity|].
  cbn [rounds]. destruct (IH (round s)) as [A B].
  destruct (round_keeps s) as [C D]. split; congruence.
Qed.

Lemma bind_read_block {A} (reg len : Z) (k : list Z -> M W A) (s : state W) :
  bind (bus_read_i2c_block_data reg len) k s
  = k (fst (read_i2c_block_data (address (self s)) reg len (world s)))
      {| self := self s;
         world := snd (read_i2c_block_data (address (self s)) reg len (world s));
         calls := calls s
                  ++ [ReadBlock (address (self s)) reg len
                        (fst (read_i2c_block_data (address (self s)) reg len
                                (world s)))] |}.
Proof. reflexivity. Qed.

(** Bring-up as far as the wait. *)
Lemma init_reaches_wait (fuel : nat) (bus : W) (addr : Z) :
  fst (identity_read bus addr) = ENS160_PART_ID ->
  __init__ fuel bus addr
  = bind (_wait_on_status_bit fuel BIT_NEWGPR)
      (fun _ =>
       bind (bus_read_i2c_block_data (REG_GPR_READ_START + 4) 3)
         (fun data =>
          bind (assign (with_firmware (String.concat "." (map py_str data))))
            (fun _ =>
             bind (irq_setup false true true true false)
               (fun _ =>
                bind (set_ref_temp DEFAULT_TEMPERATURE)
                  (fun _ =>
                   bind (set_ref_humidity DEFAULT_HUMIDITY)
                     (fun _ => wakeup))))))
      (commanded bus addr).
Proof.
  intros Hid.
  unfold __init__, _initialize.
  rewrite bind_write_byte, bind_sleep, idle_writes, bind_write_byte,
    bind_read_word.
  cbn [self world calls address fresh app].
  fold (before_identity bus addr). fold (identity_read bus addr).
  destruct (Z.eqb_spec (fst (identity_read bus addr)) ENS160_PART_ID) as [_|N];
    [|contradiction].
  cbn [negb]. rewrite bind_write_byte. reflexivity.
Qed.

(** X13. Bring-up on a genuine part.  When the identity register answers 0x160
    and read [k] of the status register is the first to show gpr-fresh,
    construction returns as soon as the wait is given more than [k] rounds.
    The handle then holds the three firmware bytes in decimal joined by
    dots, and every reading attribute is still [None].  After the wait the
    calls are, in order: the 3-byte read at GPR_READ4 (0x4c), the interrupt
    configuration 0x62 (disabled, active low, open drain, on data), the
    temperature word 18762 for 20.0 degrees, the humidity word 25600 for
    50.0 percent, and the Standard mode.  In all, seven bus writes. *)
Theorem init_succeeds (fuel k : nat) (bus : W) (addr : Z) :
  fst (identity_read bus addr) = ENS160_PART_ID ->
  (forall i, (i < k)%nat -> shows BIT_NEWGPR i (commanded bus addr) = false) ->
  shows BIT_NEWGPR k (commanded bus addr) = true ->
  (k < fuel)%nat ->
  exists s' : state W,
    __init__ fuel bus addr = Returns tt s'
    /\ self s'
       = with_firmware (String.concat "." (map py_str (fst (version_read k bus addr))))
           (fresh addr)
    /\ calls s'
       = calls (answered k bus addr)
         ++ [ReadBlock addr 0x4c 3 (fst (version_read k bus addr));
             WriteByte addr REG_CONFIG 0x62;
             WriteWord addr REG_TEMP_IN 18762;
             WriteWord addr REG_RH_IN 25600;
             WriteByte addr REG_OP_MODE OPMODE_STANDARD]
    /\ filter is_write (calls s')
       = [WriteByte addr REG_OP_MODE OPMODE_RESET;
          WriteByte addr REG_OP_MODE OPMODE_IDLE;
          WriteByte addr REG_COMMAND COMMAND_GET_APPVER;
          WriteByte addr REG_CONFIG 0x62;
          WriteWord addr REG_TEMP_IN 18762;
          WriteWord addr REG_RH_IN 25600;
          WriteByte addr REG_OP_MODE OPMODE_STANDARD].
Proof.
  intros Hid Hbefore Hat Hfuel.
  rewrite (init_reaches_wait fuel bus addr Hid).
  unfold bind at 1.
  rewrite (wait_returns BIT_NEWGPR k (commanded bus addr) fuel Hbefore Hat Hfuel).
  fold (answered k bus addr).
  assert (Hself : self (answered k bus addr) = fresh addr).
  { unfold answered, after_status. cbn [self].
    apply (rounds_keep k (commanded bus addr)). }
  assert (Hw : filter is_write (calls (answered k bus addr))
               = [WriteByte addr REG_OP_MODE OPMODE_RESET;
                  WriteByte addr REG_OP_MODE OPMODE_IDLE;
                  WriteByte addr REG_COMMAND COMMAND_GET_APPVER]).
  { unfold answered, after_status. cbn [calls].
    rewrite filter_app. cbn [filter is_write]. rewrite app_nil_r.
    rewrite (proj2 (rounds_keep k (commanded bus addr))). reflexivity. }
  rewrite bind_read_block. rewrite Hself. cbn [address fresh].
  fold (version_read k bus addr).
  unfold bind at 1, assign at 1. cbn [self world calls].
  unfold irq_setup. rewrite bind_write_byte. cbn [self world calls].
  unfold bind at 1.
  rewrite (set_ref_temp_writes _ _ _ default_temperature_word).
  cbn [self world calls].
  unfold bind at 1.
  rewrite (set_ref_humidity_writes _ _ _ default_humidity_word).
  cbn [self world calls].
  rewrite wakeup_writes.
  eexists. split; [reflexivity|].
  cbn [self calls with_firmware address fresh _aqi _tvoc _eco2 _time
       _ref_temp _ref_humidity _validity _firmware].
  split; [reflexivity|]. split.
  - rewrite <- !app_assoc. reflexivity.
  - rewrite !filter_app, Hw. reflexivity.
Qed.

(** X14. Bring-up on a genuine part that never shows gpr-fresh: whatever the
    number of rounds allowed, construction has neither returned nor raised.
    No handle is ever handed to the caller. *)
Theorem init_never_returns (bus : W) (addr : Z) :
  fst (identity_read bus addr) = ENS160_PART_ID ->
  (forall i, shows BIT_NEWGPR i (commanded bus addr) = false) ->
  forall fuel : nat, ~ finished (__init__ fuel bus addr).
Proof.
  intros Hid Hnever fuel.
  rewrite (init_reaches_wait fuel bus addr Hid).
  unfold bind at 1.
  rewrite wait_spins by (intros; apply Hnever).
  exact (fun F => F).
Qed.

End BringUpMore.

(* ================================================================== *)
(** * Calibration values outside the register range *)
(* ================================================================== *)

Section OutOfRange.

Import PyNum Driver.

Context {W : Type} {P : Platform W}.

Local Open Scope Q_scope.

Ltac split_abs H := apply Qabs_Qle_condition in H; unfold slack in H.
Ltac bound_abs := apply Qabs_Qle_condition; unfold slack; split; lra.

(** The temperature word is the scaled Kelvin value, to within rounding. *)
Lemma encode_temperature_near (c : Q) :
  -1700 <= c <= 1700 ->
  exists word : Z,
    encode_temperature c = Some word
    /\ Qabs (inject_Z word - (c + kelvin_offset) * 64) <= 51 # 100.
Proof.
  intros [Hlo Hhi].
  unfold encode_temperature, fadd, fmul.
  rewrite lit_64, lit_kelvin_offset. unfold kelvin_offset.
  set (K := 2402652809016115 # 8796093022208).
  assert (B1 : Qabs (c + K) <= 131072) by (unfold K; bound_abs).
  rewrite (b64_finite _ B1). cbn [and_then].
  pose proof (b64_nearest_close _ B1) as E1. split_abs E1.
  set (kelvin := b64_nearest (c + K)) in *.
  assert (B2 : Qabs (kelvin * 64) <= 131072) by (unfold K in *; bound_abs).
  rewrite (b64_finite _ B2). cbn [and_then].
  pose proof (b64_nearest_close _ B2) as E2. split_abs E2.
  set (scaled := b64_nearest (kelvin * 64)) in *.
  pose proof (py_round_err scaled) as E3. split_abs E3.
  exists (py_round scaled). split; [reflexivity|].
  unfold K in *. bound_abs.
Qed.

(** The humidity word is 512 times the value, to within rounding. *)
Lemma encode_humidity_near (h : Q) :
  -250 <= h <= 250 ->
  exists word : Z,
    encode_humidity h = Some word
    /\ Qabs (inject_Z word - h * 512) <= 51 # 100.
Proof.
  intros [Hlo Hhi].
  unfold encode_humidity, fmul. rewrite of_int_512. cbn [and_then].
  assert (B1 : Qabs (h * 512) <= 131072) by bound_abs.
  rewrite (b64_finite _ B1). cbn [and_then].
  pose proof (b64_nearest_close _ B1) as E1. split_abs E1.
  set (scaled := b64_nearest (h * 512)) in *.
  pose proof (py_round_err scaled) as E2. split_abs E2.
  exists (py_round scaled). split; [reflexivity|].
  bound_abs.
Qed.

(** X15. The setters check no range.  A temperature from 751 to 1700 degrees is
    encoded to a word above 0xFFFF, a humidity from 129 to 250 percent
    likewise, and a humidity from -250 to -1 percent to a negative word; in
    each case the setter raises nothing and hands that very word to the
    bus's [write_word_data], in one write to register 0x13 or 0x15. *)
Theorem setters_check_no_range (s : state W) :
  (forall c : Q, 751 <= c <= 1700 ->
     exists word : Z,
       (65535 < word)%Z
       /\ set_ref_temp c s = Returns tt (wrote_word REG_TEMP_IN word s))
  /\ (forall h : Q, 129 <= h <= 250 ->
     exists word : Z,
       (65535 < word)%Z
       /\ set_ref_humidity h s = Returns tt (wrote_word REG_RH_IN word s))
  /\ (forall h : Q, -250 <= h <= -1 ->
     exists word : Z,
       (word < 0)%Z
       /\ set_ref_humidity h s = Returns tt (wrote_word REG_RH_IN word s))
  /\ (REG_TEMP_IN, REG_RH_IN) = (0x13, 0x15)%Z.
Proof.
  split; [|split; [|split; [|reflexivity]]].
  - intros c [Hlo Hhi].
    destruct (encode_temperature_near c ltac:(lra)) as (word & E & N).
    exists word. split; [|apply set_ref_temp_writes; exact E].
    apply Qabs_Qle_condition in N. unfold kelvin_offset in N.
    rewrite Zlt_Qlt. change (inject_Z 65535) with 65535. lra.
  - intros h [Hlo Hhi].
    destruct (encode_humidity_near h ltac:(lra)) as (word & E & N).
    exists word. split; [|apply set_ref_humidity_writes; exact E].
    apply Qabs_Qle_condition in N.
    rewrite Zlt_Qlt. change (inject_Z 65535) with 65535. lra.
  - intros h [Hlo Hhi].
    destruct (encode_humidity_near h ltac:(lra)) as (word & E & N).
    exists word. split; [|apply set_ref_humidity_writes; exact E].
    apply Qabs_Qle_condition in N.
    rewrite Zlt_Qlt. change (inject_Z 0) with 0. lra.
Qed.

End OutOfRange.

(* ================================================================== *)
(** * The further results on the scripted chip *)
(* ================================================================== *)

Section MoreOnTheChip.

Import PyNum Driver Mock.

(** A genuine part whose status register never shows any flag. *)
Definition mute_chip : chip :=
  {| regs := table [(0x00, 0x60); (0x01, 0x01)];
     status_script := []; clock := 0 |}.

Lemma word_le_bytes_witness :
  (0 <= 0x34 <= 255 /\ 0 <= 0x12 <= 255)
  /\ word_le 0x34 0x12 = 0x34 + 256 * 0x12
  /\ 0 <= word_le 0x34 0x12 <= 65535
  /\ Z.land (word_le 0x34 0x12) 255 = 0x34
  /\ Z.shiftr (word_le 0x34 0x12) 8 = 0x12.
Proof.
  assert (L : 0 <= 0x34 <= 255) by lia.
  assert (H : 0 <= 0x12 <= 255) by lia.
  split; [split; assumption|].
  exact (word_le_bytes 0x34 0x12 L H).
Defined.

Lemma decode_word_exact_witness :
  (0 <= 0x5000 <= 65535)
  /\ exists t h : Q,
       decode_temperature 0x5000 = Some t
       /\ (t == inject_Z 0x5000 / 64 - kelvin_offset)%Q
       /\ (- (27315 # 100) <= t <= 75084 # 100)%Q
       /\ decode_humidity 0x5000 = Some h
       /\ (h == inject_Z 0x5000 / 512)%Q
       /\ (0 <= h < 128)%Q.
Proof.
  assert (H : 0 <= 0x5000 <= 65535) by lia.
  split; [exact H|]. exact (decode_word_exact 0x5000 H).
Defined.

Lemma word_round_trip_witness :
  (0 <= 0xffff <= 65535)
  /\ exists t h : Q,
       decode_temperature 0xffff = Some t
       /\ encode_temperature t = Some 0xffff
       /\ decode_humidity 0xffff = Some h
       /\ encode_humidity h = Some 0xffff.
Proof.
  assert (H : 0 <= 0xffff <= 65535) by lia.
  split; [exact H|]. exact (word_round_trip 0xffff H).
Defined.

(** Status [0xc2]: running, data fresh, and the error flag. *)
Lemma do_measure_gated_witness :
  Z.testbit (status_read (at_0x53 (sample_with_status 0xc2))) 6 = true
  /\ exists s',
       do_measure (at_0x53 (sample_with_status 0xc2)) = Returns false s'
       /\ self s' = fresh 0x53
       /\ calls s' = [ReadByte 0x53 REG_STATUS 0xc2].
Proof.
  split; [reflexivity|].
  exact (do_measure_gated (at_0x53 (sample_with_status 0xc2))
           (or_intror (or_introl eq_refl))).
Defined.

Lemma sample_poll_runs :
  exists s', do_measure (at_0x53 sample_chip) = Returns true s'.
Proof. eexists. vm_compute. reflexivity. Qed.

Lemma do_measure_result_witness :
  exists s',
    do_measure (at_0x53 sample_chip) = Returns true s'
    /\ true = Z.testbit 0x82 7 && negb (Z.testbit 0x82 6)
              && negb (Z.testbit 0x82 3 && Z.testbit 0x82 2)
              && Z.testbit 0x82 1.
Proof.
  destruct sample_poll_runs as [s' E]. exists s'. split; [exact E|].
  exact (do_measure_result (at_0x53 sample_chip) s' true E).
Defined.

Lemma sample_answers_well_formed (status : Z) :
  well_formed_answers (at_0x53 (sample_with_status status)).
Proof.
  unfold well_formed_answers.
  split; [reflexivity|]. split; [|split; [reflexivity|]];
    vm_compute; repeat constructor; discriminate.
Qed.

Lemma do_measure_well_formed_witness :
  (lets_through (status_read (at_0x53 (sample_with_status 0x82)))
   /\ well_formed_answers (at_0x53 (sample_with_status 0x82)))
  /\ exists (s' : state chip) (t h : Q),
       do_measure (at_0x53 (sample_with_status 0x82)) = Returns true s'
       /\ aqi (self s') = Some 42
       /\ tvoc (self s') = Some (10 + 256 * 0)
       /\ eco2 (self s') = Some (20 + 256 * 0)
       /\ ref_temp (self s') = Some t
       /\ (t == inject_Z (0 + 256 * 0x50) / 64 - kelvin_offset)%Q
       /\ ref_humidity (self s') = Some h
       /\ (h == inject_Z (0 + 256 * 0x64) / 512)%Q
       /\ Driver.time (self s') = Some 1000%Q
       /\ 0 <= 42 <= 255
       /\ 0 <= 10 + 256 * 0 <= 65535
       /\ 0 <= 20 + 256 * 0 <= 65535
       /\ (- (27315 # 100) <= t <= 75084 # 100)%Q
       /\ (0 <= h < 128)%Q.
Proof.
  assert (L : lets_through (status_read (at_0x53 (sample_with_status 0x82)))).
  { repeat split. }
  pose proof (sample_answers_well_formed 0x82) as F.
  split; [split; assumption|].
  exact (do_measure_well_formed (at_0x53 (sample_with_status 0x82)) L F).
Defined.

(** Status [0x86]: running, data fresh, validity WarmUp. *)
Lemma validity_flags_after_poll_witness :
  (lets_through (status_read (at_0x53 (sample_with_status 0x86)))
   /\ well_formed_answers (at_0x53 (sample_with_status 0x86)))
  /\ exists s' : state chip,
       do_measure (at_0x53 (sample_with_status 0x86)) = Returns true s'
       /\ is_warm_up (self s') = true
       /\ is_initial_startup (self s') = false
       /\ is_warm_up (self s') && is_initial_startup (self s') = false.
Proof.
  assert (L : lets_through (status_read (at_0x53 (sample_with_status 0x86)))).
  { repeat split. }
  pose proof (sample_answers_well_formed 0x86) as F.
  split; [split; assumption|].
  exact (validity_flags_after_poll (at_0x53 (sample_with_status 0x86)) L F).
Defined.

Lemma init_succeeds_witness :
  (fst (identity_read genuine_chip 0x53) = ENS160_PART_ID
   /\ (forall i, (i < 2)%nat ->
                 shows BIT_NEWGPR i (commanded genuine_chip 0x53) = false)
   /\ shows BIT_NEWGPR 2 (commanded genuine_chip 0x53) = true
   /\ (2 < 3)%nat)
  /\ exists s' : state chip,
       __init__ 3 genuine_chip 0x53 = Returns tt s'
       /\ self s' = with_firmware "5.4.6" (fresh 0x53)
       /\ calls s'
          = calls (answered 2 genuine_chip 0x53)
            ++ [ReadBlock 0x53 0x4c 3 [5; 4; 6];
                WriteByte 0x53 REG_CONFIG 0x62;
                WriteWord 0x53 REG_TEMP_IN 18762;
                WriteWord 0x53 REG_RH_IN 25600;
                WriteByte 0x53 REG_OP_MODE OPMODE_STANDARD]
       /\ filter is_write (calls s')
          = [WriteByte 0x53 REG_OP_MODE OPMODE_RESET;
             WriteByte 0x53 REG_OP_MODE OPMODE_IDLE;
             WriteByte 0x53 REG_COMMAND COMMAND_GET_APPVER;
             WriteByte 0x53 REG_CONFIG 0x62;
             WriteWord 0x53 REG_TEMP_IN 18762;
             WriteWord 0x53 REG_RH_IN 25600;
             WriteByte 0x53 REG_OP_MODE OPMODE_STANDARD].
Proof.
  assert (I : fst (identity_read genuine_chip 0x53) = ENS160_PART_ID)
    by reflexivity.
  assert (B : forall i, (i < 2)%nat ->
                shows BIT_NEWGPR i (commanded genuine_chip 0x53) = false).
  { intros [|[|i]] Hi; [reflexivity | reflexivity | lia]. }
  assert (A : shows BIT_NEWGPR 2 (commanded genuine_chip 0x53) = true)
    by reflexivity.
  assert (F : (2 < 3)%nat) by lia.
  split; [repeat split; assumption|].
  exact (init_succeeds 3 2 genuine_chip 0x53 I B A F).
Defined.

Lemma init_never_returns_witness :
  (fst (identity_read mute_chip 0x53) = ENS160_PART_ID
   /\ forall i, shows BIT_NEWGPR i (commanded mute_chip 0x53) = false)
  /\ ~ finished (__init__ 1000 mute_chip 0x53).
Proof.
  assert (I : fst (identity_read mute_chip 0x53) = ENS160_PART_ID)
    by reflexivity.
  assert (N : forall i, shows BIT_NEWGPR i (commanded mute_chip 0x53) = false).
  { intros i. apply silent_never_shows. split; reflexivity. }
  split; [split; assumption|].
  exact (init_never_returns mute_chip 0x53 I N 1000%nat).
Defined.

Lemma setters_check_no_range_witness :
  ((751 <= 1000 <= 1700)%Q /\ (129 <= 150 <= 250)%Q /\ (-250 <= -5 <= -1)%Q)
  /\ (exists word : Z,
        65535 < word
        /\ set_ref_temp 1000 (at_0x53 sample_chip)
           = Returns tt (wrote_word REG_TEMP_IN word (at_0x53 sample_chip)))
  /\ (exists word : Z,
        65535 < word
        /\ set_ref_humidity 150 (at_0x53 sample_chip)
           = Returns tt (wrote_word REG_RH_IN word (at_0x53 sample_chip)))
  /\ (exists word : Z,
        word < 0
        /\ set_ref_humidity (-5) (at_0x53 sample_chip)
           = Returns tt (wrote_word REG_RH_IN word (at_0x53 sample_chip))).
Proof.
  assert (T : (751 <= 1000 <= 1700)%Q) by (split; unfold Qle; simpl; lia).
  assert (H : (129 <= 150 <= 250)%Q) by (split; unfold Qle; simpl; lia).
  assert (N : (-250 <= -5 <= -1)%Q) by (split; unfold Qle; simpl; lia).
  split; [repeat split; first [apply T | apply H | apply N]|].
  split; [|split].
  - exact (proj1 (setters_check_no_range (at_0x53 sample_chip)) 1000%Q T).
  - exact (proj1 (proj2 (setters_check_no_range (at_0x53 sample_chip))) 150%Q H).
  - exact (proj1 (proj2 (proj2 (setters_check_no_range (at_0x53 sample_chip))))
             (-5)%Q N).
Defined.

End MoreOnTheChip.
